(** * imgadda: the image-merger bot of [fixed_merger_bot.py]

    A shallow embedding of the preset repository, the placement arithmetic
    of the compositor and the conversation handlers, with the properties
    the specification states about them.

    Python values are modelled as they are at run time: what [json.load]
    returns is a [json] value, a dict with string keys is a [gmap string],
    an exception is [None].  The objects of the Telegram library, PIL and
    the file system are outside the repository; what the handlers ask of
    them is collected in the class [Platform]. *)

From stdpp Require Import gmap strings list fin_maps.
From Stdlib Require Import ZArith Lia Ascii String.

Set Warnings "-register-all".
Local Open Scope Z_scope.

(** ** Python values *)

(** What [json.load] builds.  The numbers of a preset document are
    integers (spec section 6), so floats are left out of the model. *)
Inductive json :=
| JNull
| JBool (b : bool)
| JInt (n : Z)
| JStr (s : string)
| JList (l : list json)
| JDict (d : gmap string json).

(** [needle in haystack] for two strings. *)
Fixpoint str_contains (needle hay : string) : bool :=
  String.prefix needle hay ||
  match hay with
  | EmptyString => false
  | String _ rest => str_contains needle rest
  end.

Definition is_str (k : string) (v : json) : bool :=
  match v with
  | JStr s => String.eqb s k
  | _ => false
  end.

(** [k in x] for a string [k]: key membership on a dict, substring test on
    a string, element test on a list, [TypeError] on everything else. *)
Definition py_in (k : string) (x : json) : option bool :=
  match x with
  | JDict d => Some (bool_decide (is_Some (d !! k)))
  | JStr s => Some (str_contains k s)
  | JList l => Some (existsb (is_str k) l)
  | JNull | JBool _ | JInt _ => None
  end.

(** [x[k]] for a string [k]: [KeyError] or [TypeError] is [None]. *)
Definition py_getitem (x : json) (k : string) : option json :=
  match x with
  | JDict d => d !! k
  | _ => None
  end.

(** [x[k] = v] for a string [k]. *)
Definition py_setitem (x : json) (k : string) (v : json) : option json :=
  match x with
  | JDict d => Some (JDict (<[k := v]> d))
  | _ => None
  end.

(** [x.copy()]: dicts and lists have the method. *)
Definition py_copy (x : json) : option json :=
  match x with
  | JDict d => Some (JDict d)
  | JList l => Some (JList l)
  | _ => None
  end.

(** A value used as a number in arithmetic and in comparisons with [0]:
    [bool] is a subclass of [int]. *)
Definition py_number (v : json) : option Z :=
  match v with
  | JInt n => Some n
  | JBool b => Some (if b then 1 else 0)
  | _ => None
  end.

(** ** Configuration constants *)

Definition REF_IMAGE_SIZE : Z := 400.
Definition FONT_SIZE : Z := 48.

Definition SPACING_KEYS : list string := ["image_x"; "image_y"; "text_x"; "text_y"].

Definition DEFAULT_SPACING : gmap string json :=
  <["image_x" := JInt 0]> (<["image_y" := JInt 0]>
  (<["text_x" := JInt 0]> (<["text_y" := JInt 0]> ∅))).

Definition CANCEL_TEXT : string := "❌ Cancel".
Definition BACK_TEXT : string := "⬅️ Back".
Definition IMAGE_X_TEXT : string := "◀️ Move Image Left/Right ▶️".
Definition IMAGE_Y_TEXT : string := "🔼 Move Image Up/Down 🔽".
Definition TEXT_X_TEXT : string := "◀️ Move Text Left/Right ▶️".
Definition TEXT_Y_TEXT : string := "🔼 Move Text Up/Down 🔽".

(** ** The preset file *)

(** What [PRESETS_FILE] holds: a text [json.load] turns into [j], or one on
    which [open] or [json.load] raises. *)
Inductive file_content :=
| Unreadable
| Document (j : json).

(** The part of the file system the bot touches.  [presets_file] is [None]
    when [os.path.exists(PRESETS_FILE)] is false; [writable] says whether
    [open(PRESETS_FILE, 'w')] succeeds; [write_log] lists the documents
    [json.dump] wrote, oldest first. *)
Record disk := Disk {
  presets_file : option file_content;
  writable : bool;
  write_log : list json
}.

(** [with open(PRESETS_FILE, 'w') as f: json.dump(presets, f)]; [None] when
    it raises, which leaves the file as it was. *)
Definition dump_presets (presets : gmap string json) (fs : disk) : option disk :=
  if writable fs
  then Some (Disk (Some (Document (JDict presets))) true
                  (write_log fs ++ [JDict presets]))
  else None.

(** One turn of the migration loop of [load_presets] on [preset_data]:
    the record after the turn and whether it set [migrated]; [None] when
    the turn raises. *)
Definition migrate_record (preset_data : json) : option (json * bool) :=
  has_spacing ← py_in "spacing" preset_data;
  if has_spacing : bool then
    spacing ← py_getitem preset_data "spacing";
    has_top ← py_in "top" spacing;
    if has_top : bool then
      has_image_x ← py_in "image_x" spacing;
      if has_image_x : bool then Some (preset_data, false)
      else
        preset_data' ← py_setitem preset_data "spacing" (JDict DEFAULT_SPACING);
        Some (preset_data', true)
    else Some (preset_data, false)
  else Some (preset_data, false).

(** [for preset_name, preset_data in presets.items(): ...], with
    [migrated] starting at [False].  The items of a [gmap] come in the
    order of the map, not in Python's order of insertion; an exception
    discards the whole loop and the flag is a disjunction, so the result
    does not depend on the order. *)
Fixpoint migrate_items (items : list (string * json))
  : option (list (string * json) * bool) :=
  match items with
  | [] => Some ([], false)
  | (preset_name, preset_data) :: rest =>
      '(preset_data', m) ← migrate_record preset_data;
      '(rest', ms) ← migrate_items rest;
      Some ((preset_name, preset_data') :: rest', m || ms)
  end.

(** [load_presets()]: the presets returned and the file system after the
    call.  Every exception inside the outer [try] ends in [return {}]; a
    failed write of the migrated document is logged and the migrated
    presets are returned all the same. *)
Definition load_presets (fs : disk) : gmap string json * disk :=
  match presets_file fs with
  | Some (Document (JDict presets)) =>
      match migrate_items (map_to_list presets) with
      | Some (items, migrated) =>
          let presets' : gmap string json := list_to_map items in
          if migrated : bool then
            match dump_presets presets' fs with
            | Some fs' => (presets', fs')
            | None => (presets', fs)
            end
          else (presets', fs)
      | None => (∅, fs)
      end
  | _ => (∅, fs)
  end.

(** A record the migration loop passes over without touching it. *)
Definition settled (preset_data : json) : Prop :=
  migrate_record preset_data = Some (preset_data, false).

(** What the migration loop leaves of a record. *)
Definition migrated (preset_data : json) : json :=
  match migrate_record preset_data with
  | Some (preset_data', _) => preset_data'
  | None => preset_data
  end.

(** [save_presets(presets)]. *)
Definition save_presets (presets : gmap string json) (fs : disk) : bool * disk :=
  match dump_presets presets fs with
  | Some fs' => (true, fs')
  | None => (false, fs)
  end.

(** The four [if key not in spacing: spacing[key] = 0] lines that
    [presets_menu], [edit_preset], [start_new_image] and [load_preset]
    each repeat. *)
Definition fill_key (k : string) (spacing : json) : option json :=
  has ← py_in k spacing;
  if has : bool then Some spacing else py_setitem spacing k (JInt 0).

Definition fill_missing_keys (spacing : json) : option json :=
  s1 ← fill_key "image_x" spacing;
  s2 ← fill_key "image_y" s1;
  s3 ← fill_key "text_x" s2;
  fill_key "text_y" s3.

(** ** String helpers of the handlers *)

(** [s.replace(old, '')] for a non-empty [old]: the leftmost matches,
    without overlap.  [skip] counts the characters of a match still to
    drop. *)
Fixpoint str_remove (old : string) (skip : nat) (s : string) : string :=
  match s with
  | EmptyString => EmptyString
  | String c rest =>
      match skip with
      | S k => str_remove old k rest
      | O =>
          if String.prefix old s
          then str_remove old (Nat.pred (String.length old)) rest
          else String c (str_remove old 0 rest)
      end
  end.

(** [s.split(sep)[0]]: the text before the first [sep]. *)
Fixpoint str_before (sep s : string) : string :=
  match s with
  | EmptyString => EmptyString
  | String c rest =>
      if String.prefix sep s then EmptyString else String c (str_before sep rest)
  end.

(** ** The compositor's arithmetic *)

(** Lines 966-976 of [process_name]: the paste position of the reference. *)
Definition ref_position (main_width main_height image_x image_y : Z) : Z * Z :=
  let ref_center_x := main_width / 2 in
  let ref_center_y := main_height / 2 in
  let x_position := ref_center_x - REF_IMAGE_SIZE / 2 + image_x in
  let y_position := ref_center_y - REF_IMAGE_SIZE / 2 + image_y in
  (Z.max 0 (Z.min x_position (main_width - REF_IMAGE_SIZE)),
   Z.max 0 (Z.min y_position (main_height - REF_IMAGE_SIZE))).

(** Lines 1040-1046 of [process_name]: the position of the label. *)
Definition text_position
    (main_width main_height text_width text_height text_x text_y : Z) : Z * Z :=
  let x := (main_width - text_width) / 2 + text_x in
  let y := main_height - text_height - 30 + text_y in
  (Z.max 10 (Z.min x (main_width - text_width - 10)),
   Z.max 10 (Z.min y (main_height - text_height - 10))).

(** [clamp(v, lo, hi)] as the specification uses it: the lower bound wins
    when the interval is empty. *)
Definition spec_clamp (v lo hi : Z) : Z := Z.max lo (Z.min v hi).

(** The anchor of the specification, section 8, on one axis. *)
Definition spec_ref_anchor (main_dim ref_side offset : Z) : Z :=
  spec_clamp ((main_dim - ref_side) / 2 + offset) 0 (main_dim - ref_side).

(** [lo <= v <= hi]. *)
Definition within (lo hi v : Z) : Prop := lo <= v <= hi.

Inductive image_mode := RGBA | RGB.

Inductive image_format := PNG | JPEG (quality : Z).

(** What [process_name] builds and encodes, by the parameters of its
    construction. *)
Record composition := Composition {
  canvas_mode : image_mode;
  ref_mode : image_mode;
  canvas_size : Z * Z;
  ref_anchor : Z * Z;
  masked_paste : bool;
  label : string;
  text_extent : Z * Z;
  text_anchor : Z * Z;
  out_format : image_format;
  out_name : string
}.

(** ** Sessions *)

(** A [PhotoSize] or [Document] object of the transport. *)
Record media := Media { file_id : string }.

Record user := User {
  user_id : Z;
  first_name : string;
  username : option string
}.

(** [user_data[user_id]]: a dict with a fixed set of keys, each [None]
    while the key is absent. *)
Record session := Session {
  spacing : option json;
  current_spacing_key : option string;
  first_photo : option media;
  first_is_document : option bool;
  first_mime_type : option string;
  second_photo : option media;
  second_is_document : option bool;
  second_mime_type : option string;
  user_info : option (Z * string * string);
  editing_preset : option string;
  last_preset : option string
}.

(** [{}] *)
Definition empty_session : session :=
  Session None None None None None None None None None None None.

Definition set_spacing (v : json) (s : session) : session :=
  Session (Some v) (current_spacing_key s) (first_photo s) (first_is_document s)
    (first_mime_type s) (second_photo s) (second_is_document s)
    (second_mime_type s) (user_info s) (editing_preset s) (last_preset s).

Definition set_current_spacing_key (k : string) (s : session) : session :=
  Session (spacing s) (Some k) (first_photo s) (first_is_document s)
    (first_mime_type s) (second_photo s) (second_is_document s)
    (second_mime_type s) (user_info s) (editing_preset s) (last_preset s).

Definition set_first (photo : media) (is_document : bool)
    (mime : option string) (s : session) : session :=
  Session (spacing s) (current_spacing_key s) (Some photo) (Some is_document)
    (match mime with Some m => Some m | None => first_mime_type s end)
    (second_photo s) (second_is_document s) (second_mime_type s)
    (user_info s) (editing_preset s) (last_preset s).

Definition set_second (photo : media) (is_document : bool)
    (mime : option string) (s : session) : session :=
  Session (spacing s) (current_spacing_key s) (first_photo s)
    (first_is_document s) (first_mime_type s) (Some photo) (Some is_document)
    (match mime with Some m => Some m | None => second_mime_type s end)
    (user_info s) (editing_preset s) (last_preset s).

Definition set_user_info (i : Z * string * string) (s : session) : session :=
  Session (spacing s) (current_spacing_key s) (first_photo s)
    (first_is_document s) (first_mime_type s) (second_photo s)
    (second_is_document s) (second_mime_type s) (Some i) (editing_preset s)
    (last_preset s).

Definition set_editing_preset (n : option string) (s : session) : session :=
  Session (spacing s) (current_spacing_key s) (first_photo s)
    (first_is_document s) (first_mime_type s) (second_photo s)
    (second_is_document s) (second_mime_type s) (user_info s) n (last_preset s).

Definition set_last_preset (n : string) (s : session) : session :=
  Session (spacing s) (current_spacing_key s) (first_photo s)
    (first_is_document s) (first_mime_type s) (second_photo s)
    (second_is_document s) (second_mime_type s) (user_info s)
    (editing_preset s) (Some n).

(** [settings_data = {}], then [settings_data['spacing'] = ...] when the
    session has the key: what [process_name] and [cancel] leave of a
    session. *)
Definition settings_data (s : session) : session :=
  Session (spacing s) None None None None None None None None None None.

(** [spacing[k]] read as a number. *)
Definition read_offset (spacing : json) (k : string) : option Z :=
  v ← py_getitem spacing k; py_number v.

(** Whether the position descriptions a handler puts in its reply can be
    built: every [spacing[k] < 0] and [spacing[k] != 0] it evaluates needs
    the key and, to get past the comparison with [<], a number. *)
Definition offsets_readable (keys : list string) (spacing : json) : bool :=
  forallb (λ k, match read_offset spacing k with Some _ => true | None => false end)
          keys.

(** [x.get('first_is_document') and x.get('first_mime_type') == 'image/png'],
    and the same for the second image (lines 941-945). *)
Definition has_transparency (s : session) : bool :=
  (default false (first_is_document s)
     && bool_decide (first_mime_type s = Some "image/png"))
  || (default false (second_is_document s)
        && bool_decide (second_mime_type s = Some "image/png")).

(** ** The world of the handlers *)

(** The conversation states of line 18, and [ConversationHandler.END]. *)
Inductive conv_state :=
| FIRST_IMAGE | SECOND_IMAGE | NAME | SETTINGS | CUSTOM_SPACING
| SPACING_INPUT | PRESETS | SAVE_PRESET | LOAD_PRESET | PRESET_NAME
| DELETE_PRESET | EDIT_PRESET | END.

(** How a handler ends: the state it returns, or an exception it lets
    through (the conversation then stays in the state it was in). *)
Inductive outcome :=
| Return (s : conv_state)
| Raised.

(** The texts the handlers send, by what they say; keyboards are left to
    the transport. *)
Inductive reply :=
| SettingsText | PositionMenuText | AskOffsetText
| InvalidNumberText (key : string)
| PresetsMenuText (buttons : list (string * Z * Z))
| PresetLoadedText (name : string) | PresetNotFoundText
| PresetUnknownText | InvalidPresetText | EditingPresetText (name : string)
| SelectPresetText
| PresetSavedText (name : string) | PresetSaveFailedText
| NoSpacingText | EmptyNameText
| AskMainText (with_preset : bool) | AskReferenceText | AskLabelText
| SendImageText
| ProcessingText | ErrorText | TryAgainText | MergedText
| GroupSkippedText | CancelledText.

Inductive outbound :=
| SendText (body : reply)
| SendDocument (doc : composition)
| SendGroupDocument (doc : composition) (first_name username text : string).

(** What reaches a handler in [update.message]. *)
Inductive message :=
| TextMsg (text : string)
| PhotoMsg (sizes : list media)
| DocumentMsg (document : media) (mime_type : option string).

Record world := World {
  user_data : gmap Z session;
  files : disk;
  outbox : list outbound
}.

Definition send (o : outbound) (w : world) : world :=
  World (user_data w) (files w) (outbox w ++ [o]).

Definition with_user_data (ud : gmap Z session) (w : world) : world :=
  World ud (files w) (outbox w).

Definition with_files (fs : disk) (w : world) : world :=
  World (user_data w) fs (outbox w).

(** What the handlers take from Python's library, PIL and the transport.
    [str_strip] is [str.strip()]; [int_of_str] is [int(s)], [None] for
    [ValueError]; [open_image] is [get_file], [download_to_memory] and
    [Image.open(..).convert(..)] on a stored media object, giving the
    size of the image, [None] when one of them raises; [font_getbbox] is
    [getbbox] of the resolved font; [group_reachable] says whether the
    send to the group goes through.  Replies to the user are taken to
    go through.  The Back label is no integer. *)
Class Platform := {
  str_strip : string → string;
  int_of_str : string → option Z;
  open_image : media → option (Z * Z);
  font_getbbox : string → Z * Z * Z * Z;
  group_reachable : bool;
  back_is_no_int : int_of_str (str_strip BACK_TEXT) = None
}.

Section Handlers.
Context `{Platform}.

(** [if user_id not in user_data: user_data[user_id] = {}] followed by
    [if 'spacing' not in user_data[user_id]: ... = DEFAULT_SPACING.copy()]. *)
Definition ensure_spacing (uid : Z) (ud : gmap Z session) : gmap Z session :=
  let s := default empty_session (ud !! uid) in
  <[uid := match spacing s with
           | Some _ => s
           | None => set_spacing (JDict DEFAULT_SPACING) s
           end]> ud.

(** The body shared by [settings] and [custom_spacing_menu]: make sure the
    session has a spacing, describe the four offsets, reply. *)
Definition show_menu (body : reply) (next : conv_state) (uid : Z) (w : world)
  : outcome * world :=
  let ud := ensure_spacing uid (user_data w) in
  let w1 := with_user_data ud w in
  match ud !! uid ≫= spacing with
  | Some sp =>
      if offsets_readable SPACING_KEYS sp
      then (Return next, send (SendText body) w1)
      else (Raised, w1)
  | None => (Raised, w1)
  end.

Definition settings : Z → world → outcome * world :=
  show_menu SettingsText SETTINGS.

Definition custom_spacing_menu : Z → world → outcome * world :=
  show_menu PositionMenuText CUSTOM_SPACING.

(** The [if text.startswith(..) ... elif ...] chain of
    [handle_direction_selection]. *)
Definition position_key_of (text : string) : option string :=
  if String.prefix IMAGE_X_TEXT text then Some "image_x"
  else if String.prefix IMAGE_Y_TEXT text then Some "image_y"
  else if String.prefix TEXT_X_TEXT text then Some "text_x"
  else if String.prefix TEXT_Y_TEXT text then Some "text_y"
  else None.

Definition handle_direction_selection (uid : Z) (text : string) (w : world)
  : outcome * world :=
  if String.eqb text BACK_TEXT then settings uid w
  else
    let ud := ensure_spacing uid (user_data w) in
    let w1 := with_user_data ud w in
    match position_key_of text with
    | Some position_key =>
        match ud !! uid with
        | Some s =>
            match spacing s ≫= (λ sp, read_offset sp position_key) with
            | Some _ =>
                (Return SPACING_INPUT,
                 send (SendText AskOffsetText)
                   (with_user_data
                      (<[uid := set_current_spacing_key position_key s]> ud) w1))
            | None => (Raised, w1)
            end
        | None => (Raised, w1)
        end
    | None => custom_spacing_menu uid w1
    end.

(** [handle_spacing_input]: only [ValueError] is caught; a session without
    [spacing] makes the assignment raise [KeyError]. *)
Definition handle_spacing_input (uid : Z) (text : string) (w : world)
  : outcome * world :=
  if String.eqb text BACK_TEXT then custom_spacing_menu uid w
  else
    let s := match user_data w !! uid with
             | Some s => s
             | None => set_spacing (JDict DEFAULT_SPACING) empty_session
             end in
    let w1 := with_user_data (<[uid := s]> (user_data w)) w in
    let current_key := default "image_x" (current_spacing_key s) in
    match int_of_str (str_strip text) with
    | Some spacing_value =>
        match spacing s ≫= (λ sp, py_setitem sp current_key (JInt spacing_value)) with
        | Some sp' =>
            custom_spacing_menu uid
              (with_user_data (<[uid := set_spacing sp' s]> (user_data w1)) w1)
        | None => (Raised, w1)
        end
    | None =>
        (Return SPACING_INPUT, send (SendText (InvalidNumberText current_key)) w1)
    end.

(** One turn of the loop of [presets_menu]: the button of a preset, if it
    gets one; [None] when the turn raises. *)
Definition preset_button (item : string * json) : option (list (string * Z * Z)) :=
  let '(preset_name, preset_data) := item in
  has_spacing ← py_in "spacing" preset_data;
  if has_spacing : bool then
    sp ← py_getitem preset_data "spacing";
    sp' ← fill_missing_keys sp;
    image_x ← read_offset sp' "image_x";
    image_y ← read_offset sp' "image_y";
    Some [(preset_name, image_x, image_y)]
  else Some [].

Fixpoint preset_buttons (items : list (string * json))
  : option (list (string * Z * Z)) :=
  match items with
  | [] => Some []
  | item :: rest =>
      b ← preset_button item;
      bs ← preset_buttons rest;
      Some (b ++ bs)
  end.

Definition presets_menu (uid : Z) (w : world) : outcome * world :=
  let '(presets, fs) := load_presets (files w) in
  let w1 := with_files fs w in
  match preset_buttons (map_to_list presets) with
  | Some buttons => (Return PRESETS, send (SendText (PresetsMenuText buttons)) w1)
  | None => (Raised, w1)
  end.

(** The name on a button: [prefix] removed from the text, the text cut
    before the first space followed by an opening parenthesis, the rest
    stripped. *)
Definition button_name (prefix text : string) : string :=
  str_strip (str_before " (" (str_remove prefix 0 text)).

(** [preset_data["spacing"].copy()] with the missing keys filled in. *)
Definition filled_copy (preset_data : json) : option json :=
  sp ← py_getitem preset_data "spacing";
  sp' ← py_copy sp;
  fill_missing_keys sp'.

(** [load_preset]; [selected] is [context.user_data["selected_preset"]]
    when [command_handler] left one. *)
Definition load_preset (uid : Z) (selected : option string) (text : string)
    (w : world) : outcome * world :=
  let name :=
    match selected with
    | Some n => Some n
    | None =>
        if String.prefix "Preset:" text then Some (button_name "Preset:" text)
        else None
    end in
  match name with
  | None => (Return SETTINGS, send (SendText PresetUnknownText) w)
  | Some preset_name =>
      let '(presets, fs) := load_presets (files w) in
      let w1 := with_files fs w in
      match presets !! preset_name with
      | Some preset_data =>
          let s := default empty_session (user_data w1 !! uid) in
          let w2 := with_user_data (<[uid := s]> (user_data w1)) w1 in
          match py_in "spacing" preset_data with
          | Some true =>
              match filled_copy preset_data with
              | Some sp =>
                  (Return SETTINGS,
                   send (SendText (PresetLoadedText preset_name))
                     (with_user_data
                        (<[uid := set_last_preset preset_name (set_spacing sp s)]>
                           (user_data w2)) w2))
              | None => (Raised, w2)
              end
          | Some false =>
              (Return SETTINGS,
               send (SendText (PresetLoadedText preset_name))
                 (with_user_data
                    (<[uid := set_spacing (JDict DEFAULT_SPACING) s]>
                       (user_data w2)) w2))
          | None => (Raised, w2)
          end
      | None => (Return SETTINGS, send (SendText PresetNotFoundText) w1)
      end
  end.

Definition edit_preset (uid : Z) (text : string) (w : world) : outcome * world :=
  if String.eqb text BACK_TEXT then presets_menu uid w
  else if String.prefix "Edit:" text then
    let preset_name := button_name "Edit:" text in
    let '(presets, fs) := load_presets (files w) in
    let w1 := with_files fs w in
    match presets !! preset_name with
    | Some preset_data =>
        let s := default empty_session (user_data w1 !! uid) in
        let w2 := with_user_data (<[uid := s]> (user_data w1)) w1 in
        match py_in "spacing" preset_data with
        | Some true =>
            match filled_copy preset_data with
            | Some sp =>
                (Return SETTINGS,
                 send (SendText (EditingPresetText preset_name))
                   (with_user_data
                      (<[uid := set_editing_preset (Some preset_name)
                                  (set_spacing sp s)]> (user_data w2)) w2))
            | None => (Raised, w2)
            end
        | Some false => (Return EDIT_PRESET, send (SendText InvalidPresetText) w2)
        | None => (Raised, w2)
        end
    | None => (Return EDIT_PRESET, send (SendText PresetNotFoundText) w1)
    end
  else (Return EDIT_PRESET, send (SendText SelectPresetText) w).

(** The first half of [start_new_image]: the last preset, when the session
    names one that is stored with a spacing, is applied again.  The result
    is the world after it and the spacing applied; [None] when it raises. *)
Definition apply_last_preset (uid : Z) (w : world) : option (world * option json) :=
  match user_data w !! uid with
  | Some s =>
      match last_preset s with
      | Some name =>
          let '(presets, fs) := load_presets (files w) in
          let w1 := with_files fs w in
          match presets !! name with
          | Some preset_data =>
              has_spacing ← py_in "spacing" preset_data;
              if has_spacing : bool then
                sp ← filled_copy preset_data;
                Some (with_user_data (<[uid := set_spacing sp s]> (user_data w1)) w1,
                      Some sp)
              else Some (w1, None)
          | None => Some (w1, None)
          end
      | None => Some (w, None)
      end
  | None => Some (w, None)
  end.

Definition start_new_image (uid : Z) (w : world) : outcome * world :=
  match apply_last_preset uid w with
  | Some (w1, Some sp) =>
      if offsets_readable ["image_x"; "image_y"] sp
      then (Return FIRST_IMAGE, send (SendText (AskMainText true)) w1)
      else (Raised, w1)
  | Some (w1, None) => (Return FIRST_IMAGE, send (SendText (AskMainText false)) w1)
  | None =>
      (Raised,
       match user_data w !! uid ≫= last_preset with
       | Some _ => with_files (load_presets (files w)).2 w
       | None => w
       end)
  end.

(** [save_preset]: the text is the name of the preset, stripped. *)
Definition save_preset (uid : Z) (text : string) (w : world) : outcome * world :=
  if String.eqb text BACK_TEXT then settings uid w
  else
    let preset_name := str_strip text in
    if String.eqb preset_name EmptyString then
      (Return PRESET_NAME, send (SendText EmptyNameText) w)
    else
      match user_data w !! uid with
      | Some s =>
          match spacing s with
          | Some sp =>
              let '(presets, fs1) := load_presets (files w) in
              let presets' :=
                <[preset_name := JDict (<["spacing" := sp]> ∅)]> presets in
              let '(saved, fs2) := save_presets presets' fs1 in
              let w1 := with_files fs2 w in
              if saved : bool then
                (Return SETTINGS,
                 send (SendText (PresetSavedText preset_name))
                   (with_user_data
                      (<[uid := set_last_preset preset_name
                                  (set_editing_preset None s)]> (user_data w1)) w1))
              else (Return SETTINGS, send (SendText PresetSaveFailedText) w1)
          | None => (Return SETTINGS, send (SendText NoSpacingText) w)
          end
      | None => (Return SETTINGS, send (SendText NoSpacingText) w)
      end.

(** What a handler stores of a message that carries an image: the object,
    whether it came as a document, and the MIME type of a document.
    [None] is the [else] branch; a document without a MIME type makes
    [mime_type.startswith] raise. *)
Inductive image_of_message :=
| Stored (m : media) (is_document : bool) (mime : option string)
| NoImage
| MimeRaises.

Definition classify_message (msg : message) : image_of_message :=
  match msg with
  | PhotoMsg sizes =>
      match last sizes with
      | Some photo => Stored photo false None
      | None => NoImage
      end
  | DocumentMsg document mime =>
      match mime with
      | Some m =>
          if String.prefix "image/" m then Stored document true (Some m)
          else NoImage
      | None => MimeRaises
      end
  | TextMsg _ => NoImage
  end.

Definition first_image (u : user) (msg : message) (w : world) : outcome * world :=
  let uid := user_id u in
  let ud := ensure_spacing uid (user_data w) in
  let s := set_user_info (uid, first_name u, default "Anonymous" (username u))
             (default empty_session (ud !! uid)) in
  let w1 := with_user_data (<[uid := s]> ud) w in
  match classify_message msg with
  | Stored m is_document mime =>
      let w2 :=
        with_user_data (<[uid := set_first m is_document mime s]> (user_data w1)) w1 in
      match spacing s with
      | Some sp =>
          if offsets_readable ["image_x"; "image_y"] sp
          then (Return SECOND_IMAGE, send (SendText AskReferenceText) w2)
          else (Raised, w2)
      | None => (Raised, w2)
      end
  | NoImage => (Return FIRST_IMAGE, send (SendText SendImageText) w1)
  | MimeRaises => (Raised, w1)
  end.

(** [cancel]: only [spacing] is kept of the session. *)
Definition cancel (uid : Z) (w : world) : outcome * world :=
  let ud := match user_data w !! uid with
            | Some s => <[uid := settings_data s]> (user_data w)
            | None => user_data w
            end in
  (Return END, send (SendText CancelledText) (with_user_data ud w)).

Definition message_text (msg : message) : option string :=
  match msg with
  | TextMsg t => Some t
  | _ => None
  end.

Definition second_image (uid : Z) (msg : message) (w : world) : outcome * world :=
  if bool_decide (message_text msg = Some CANCEL_TEXT) then cancel uid w
  else
    match classify_message msg with
    | Stored m is_document mime =>
        match user_data w !! uid with
        | Some s =>
            (Return NAME,
             send (SendText AskLabelText)
               (with_user_data
                  (<[uid := set_second m is_document mime s]> (user_data w)) w))
        | None => (Raised, w)
        end
    | NoImage => (Return SECOND_IMAGE, send (SendText SendImageText) w)
    | MimeRaises => (Raised, w)
    end.

(** The [try] block of [process_name] up to the encoded output: [None]
    when a step raises, which is before anything is sent. *)
Definition compose (s : session) (name : string) : option composition :=
  first ← first_photo s;
  second ← second_photo s;
  let transparent := has_transparency s in
  let mode := if transparent then RGBA else RGB in
  '(main_width, main_height) ← open_image first;
  _ ← open_image second;
  sp ← spacing s;
  image_x ← read_offset sp "image_x";
  image_y ← read_offset sp "image_y";
  let '(x0, y0, x1, y1) := font_getbbox name in
  let text_width := x1 - x0 in
  let text_height := y1 - y0 in
  text_x ← read_offset sp "text_x";
  text_y ← read_offset sp "text_y";
  Some {| canvas_mode := mode;
          ref_mode := mode;
          canvas_size := (main_width, main_height);
          ref_anchor := ref_position main_width main_height image_x image_y;
          masked_paste := transparent;
          label := name;
          text_extent := (text_width, text_height);
          text_anchor := text_position main_width main_height
                           text_width text_height text_x text_y;
          out_format := if transparent then PNG else JPEG 95;
          out_name := if transparent then "merged_image.png"
                      else "merged_image.jpg" |}.

(** The [except] branch of [process_name]. *)
Definition report_error (w : world) : outcome * world :=
  (Return END, send (SendText TryAgainText) (send (SendText ErrorText) w)).

Definition process_name (uid : Z) (text : string) (w : world) : outcome * world :=
  if String.eqb text CANCEL_TEXT then cancel uid w
  else
    let w1 := send (SendText ProcessingText) w in
    match user_data w !! uid with
    | Some s =>
        match compose s text with
        | Some doc =>
            let w2 := send (SendDocument doc) w1 in
            match user_info s with
            | Some (_, first, uname) =>
                let w3 := if group_reachable
                          then send (SendGroupDocument doc first uname text) w2
                          else send (SendText GroupSkippedText) w2 in
                (Return END,
                 send (SendText MergedText)
                   (with_user_data (<[uid := settings_data s]> (user_data w3)) w3))
            | None => report_error w2
            end
        | None => report_error w1
        end
    | None => report_error w1
    end.

(** What [delete_preset] answers. *)
Inductive delete_reply :=
| PresetDeletedText (name : string)
| PresetDeleteFailedText
| DeleteNotFoundText
| SelectDeleteText.

(** [delete_preset]: the preset named on the button is removed from the
    loaded presets and the rest is written back.  The reply is returned
    beside the world ([None] when the handler hands over to
    [presets_menu], which sends its own). *)
Definition delete_preset (uid : Z) (text : string) (w : world)
  : outcome * world * option delete_reply :=
  if String.eqb text BACK_TEXT then (presets_menu uid w, None)
  else if String.prefix "Delete:" text then
    let preset_name := button_name "Delete:" text in
    let '(presets, fs1) := load_presets (files w) in
    match presets !! preset_name with
    | Some _ =>
        let '(saved, fs2) := save_presets (delete preset_name presets) fs1 in
        (Return DELETE_PRESET, with_files fs2 w,
         Some (if saved : bool then PresetDeletedText preset_name
               else PresetDeleteFailedText))
    | None => (Return DELETE_PRESET, with_files fs1 w, Some DeleteNotFoundText)
    end
  else (Return DELETE_PRESET, w, Some SelectDeleteText).

End Handlers.

(** ** The font of the label *)

Definition BOLDONSE_FONT_URL : string :=
  "https://fonts.googleapis.com/css2?family=Boldonse&display=swap".

(** The [font_paths] that [process_name] lists as fallbacks. *)
Definition FONT_PATHS : list string :=
  ["/System/Library/Fonts/Courier.ttc";
   "/System/Library/Fonts/Monaco.ttf";
   "/usr/share/fonts/truetype/liberation/LiberationMono-Regular.ttf";
   "C:\Windows\Fonts\consola.ttf";
   "C:\Windows\Fonts\cour.ttf";
   "/System/Library/Fonts/Menlo.ttc"].

(** What the font code sees of the world: the content of
    [FONT_FILE_PATH] when the file exists; whether the file can be opened
    for writing; what [requests.get(url)] gives, [None] when it raises and
    else the [ok] flag and the body; whether [ImageFont.truetype] loads a
    file of a given content; and, for a path of the fallback list, [None]
    when it does not exist and else whether [ImageFont.truetype] loads
    it. *)
Record font_env := FontEnv {
  font_cache : option string;
  cache_writable : bool;
  http_get : string → option (bool * string);
  parses_as_font : string → bool;
  platform_font : string → option bool
}.

Inductive font :=
| Boldonse
| PlatformFont (path : string)
| DefaultFont.

(** [s.split(newline)] *)
Fixpoint split_lines (s : string) : list string :=
  match s with
  | EmptyString => [EmptyString]
  | String c rest =>
      if Ascii.eqb c "010" then EmptyString :: split_lines rest
      else match split_lines rest with
           | line :: lines => String c line :: lines
           | [] => [String c EmptyString]
           end
  end.

(** [s.find(sub)]: [None] is [-1]. *)
Fixpoint str_find (sub s : string) : option nat :=
  match s with
  | EmptyString => if String.prefix sub s then Some O else None
  | String _ rest =>
      if String.prefix sub s then Some O else S <$> str_find sub rest
  end.

Fixpoint str_drop (n : nat) (s : string) : string :=
  match n, s with
  | S k, String _ rest => str_drop k rest
  | _, _ => s
  end.

Fixpoint str_take (n : nat) (s : string) : string :=
  match n, s with
  | S k, String c rest => String c (str_take k rest)
  | _, _ => EmptyString
  end.

(** [s[start:end]] where [end] is the result of a [find]: [-1] stands for
    the position before the last character. *)
Definition str_slice (start : nat) (stop : option nat) (s : string) : string :=
  let stop := match stop with
              | Some e => e
              | None => Nat.pred (String.length s)
              end in
  str_take (stop - start)%nat (str_drop start s).

Fixpoint lstrip_char (c : ascii) (s : string) : string :=
  match s with
  | String d rest => if Ascii.eqb d c then lstrip_char c rest else s
  | EmptyString => EmptyString
  end.

Fixpoint rstrip_char (c : ascii) (s : string) : string :=
  match s with
  | String d rest =>
      match rstrip_char c rest with
      | EmptyString => if Ascii.eqb d c then EmptyString else String d EmptyString
      | rest' => String d rest'
      end
  | EmptyString => EmptyString
  end.

(** [s.strip(c)] for a single character [c]. *)
Definition strip_char (c : ascii) (s : string) : string :=
  rstrip_char c (lstrip_char c s).

Section Fonts.
Context `{Platform}.

(** Lines 130-132 of [download_font], on a line that contains [url(]. *)
Definition url_in_line (line : string) : string :=
  let start := (default O (str_find "url(" line) + 4)%nat in
  let stop := (λ i, start + i)%nat <$> str_find ")" (str_drop start line) in
  strip_char "034" (strip_char "039" (str_strip (str_slice start stop line))).

(** The loop over the lines of the stylesheet, left at the first line
    that has both [url(] and [.ttf]. *)
Fixpoint find_font_url (lines : list string) : option string :=
  match lines with
  | [] => None
  | line :: rest =>
      if str_contains "url(" line && str_contains ".ttf" line
      then Some (url_in_line line)
      else find_font_url rest
  end.

(** [download_font()]: what it returns and the cache file after it.  An
    exception anywhere ends in [return False]; a write that raises is
    taken to leave no file. *)
Definition download_font (env : font_env) : bool * option string :=
  match font_cache env with
  | Some content => (true, Some content)
  | None =>
      match http_get env BOLDONSE_FONT_URL with
      | Some (true, css_content) =>
          match find_font_url (split_lines css_content) with
          | Some font_url =>
              if String.eqb font_url EmptyString then (false, None)
              else
                match http_get env font_url with
                | Some (true, content) =>
                    if cache_writable env then (true, Some content)
                    else (false, None)
                | _ => (false, None)
                end
          | None => (false, None)
          end
      | _ => (false, None)
      end
  end.

(** The loop over [font_paths]: the first path that exists and loads; a
    path that exists and does not load is logged and passed over. *)
Fixpoint first_platform_font (env : font_env) (paths : list string)
  : option string :=
  match paths with
  | [] => None
  | path :: rest =>
      match platform_font env path with
      | Some true => Some path
      | _ => first_platform_font env rest
      end
  end.

(** Lines 993-1034 of [process_name]: the font the label is drawn with,
    and the cache file afterwards.  A failed download raises inside the
    [try], and so does a cache file that does not load; both end in the
    [except] branch with the built-in font. *)
Definition resolve_font (env : font_env) : font * option string :=
  let '(ready, cache) :=
    match font_cache env with
    | Some content => (true, Some content)
    | None => download_font env
    end in
  if ready : bool then
    match cache with
    | Some content =>
        if parses_as_font env content then (Boldonse, cache)
        else (DefaultFont, cache)
    | None =>
        match first_platform_font env FONT_PATHS with
        | Some path => (PlatformFont path, cache)
        | None => (DefaultFont, cache)
        end
    end
  else (DefaultFont, cache).

End Fonts.

(** ** A platform to run the handlers on

    The ASCII part of [str.strip] and [int]: enough to evaluate the handlers
    on concrete messages.  The theorems below hold for every [Platform]. *)

Definition is_space (c : ascii) : bool :=
  let n := nat_of_ascii c in
  ((9 <=? n) && (n <=? 13) || (28 <=? n) && (n <=? 32))%nat.

Fixpoint lstrip (s : string) : string :=
  match s with
  | String c rest => if is_space c then lstrip rest else s
  | EmptyString => EmptyString
  end.

Fixpoint rstrip (s : string) : string :=
  match s with
  | String c rest =>
      match rstrip rest with
      | EmptyString => if is_space c then EmptyString else String c EmptyString
      | rest' => String c rest'
      end
  | EmptyString => EmptyString
  end.

Definition ascii_strip (s : string) : string := rstrip (lstrip s).

Definition digit_of (c : ascii) : option Z :=
  let n := nat_of_ascii c in
  if ((48 <=? n) && (n <=? 57))%nat then Some (Z.of_nat n - 48) else None.

(** Decimal digits, single underscores between them allowed. *)
Fixpoint digits (acc : Z) (after_digit : bool) (s : string) : option Z :=
  match s with
  | EmptyString => if after_digit then Some acc else None
  | String c rest =>
      match digit_of c with
      | Some d => digits (10 * acc + d) true rest
      | None =>
          if Ascii.eqb c "_" && after_digit then digits acc false rest else None
      end
  end.

Definition ascii_int (s : string) : option Z :=
  match ascii_strip s with
  | String "+" rest => digits 0 false rest
  | String "-" rest => Z.opp <$> digits 0 false rest
  | body => digits 0 false body
  end.

Definition ascii_platform (images : media → option (Z * Z))
    (bbox : string → Z * Z * Z * Z) (group : bool) : Platform :=
  {| str_strip := ascii_strip;
     int_of_str := ascii_int;
     open_image := images;
     font_getbbox := bbox;
     group_reachable := group;
     back_is_no_int := eq_refl |}.

(** A spacing record with its four offsets. *)
Definition spacing_record (image_x image_y text_x text_y : Z) : gmap string json :=
  <["image_x" := JInt image_x]> (<["image_y" := JInt image_y]>
  (<["text_x" := JInt text_x]> (<["text_y" := JInt text_y]> ∅))).

(** [{"spacing": sp}], the value of a preset in the document. *)
Definition preset_entry (sp : json) : json := JDict (<["spacing" := sp]> ∅).

(** A record of the document as section 6 of the specification has it: an
    object whose ["spacing"], when present, is an object. *)
Definition preset_record (preset_data : json) : Prop :=
  ∃ d, preset_data = JDict d ∧
       ∀ sp, d !! "spacing" = Some sp → ∃ s, sp = JDict s.

(** The test [load_presets] applies to tell the old format. *)
Definition old_format (sp : gmap string json) : Prop :=
  is_Some (sp !! "top") ∧ sp !! "image_x" = None.

(** A message that delivers a document declared as [image/png]. *)
Definition is_png_document (msg : message) : bool :=
  match msg with
  | DocumentMsg _ (Some m) => String.eqb m "image/png"
  | _ => false
  end.

(** ** Sample inputs *)

(** Two images that open, of 500 x 500 and 100 x 100 pixels, and one
    that does not. *)
Definition sample_images (m : media) : option (Z * Z) :=
  if String.eqb (file_id m) "main" then Some (500, 500)
  else if String.eqb (file_id m) "ref" then Some (100, 100)
  else if String.eqb (file_id m) "small" then Some (100, 100)
  else None.

(** A font whose glyphs are 24 wide and 36 high. *)
Definition sample_bbox (name : string) : Z * Z * Z * Z :=
  (0, 0, 24 * Z.of_nat (String.length name), 36).

Definition sample_platform : Platform :=
  ascii_platform sample_images sample_bbox true.

Definition sample_user : user := User 7 "Ann" (Some "ann").

(** A session at the [NAME] state: both images in, sent as photos, the
    preset "Demo" loaded before. *)
Definition sample_session : session :=
  {| spacing := Some (JDict (spacing_record 20 (-10) 0 5));
     current_spacing_key := Some "text_x";
     first_photo := Some (Media "main");
     first_is_document := Some false;
     first_mime_type := None;
     second_photo := Some (Media "ref");
     second_is_document := Some false;
     second_mime_type := None;
     user_info := Some (7, "Ann", "ann");
     editing_preset := None;
     last_preset := Some "Demo" |}.

Definition sample_composition : composition :=
  {| canvas_mode := RGB; ref_mode := RGB;
     canvas_size := (500, 500);
     ref_anchor := (70, 40);
     masked_paste := false;
     label := "Hi";
     text_extent := (48, 36);
     text_anchor := (226, 439);
     out_format := JPEG 95;
     out_name := "merged_image.jpg" |}.

(** The same session with a main image of 100 x 100. *)
Definition small_session : session :=
  set_first (Media "small") false None sample_session.

(** The same session with a main image that cannot be opened. *)
Definition broken_session : session :=
  set_first (Media "broken") false None sample_session.

(** The session of a user at [SPACING_INPUT] whose pending key is gone. *)
Definition keyless_session : session :=
  settings_data sample_session.

Definition empty_disk : disk := Disk None true [].

Definition world_of (s : session) (fs : disk) : world :=
  World {[7 := s]} fs [].

Definition sample_world : world := world_of sample_session empty_disk.

(** A document with a record in the old format and one in the current
    format. *)
Definition old_spacing : gmap string json :=
  <["top" := JInt 10]> (<["right" := JInt 10]>
  (<["bottom" := JInt 10]> (<["left" := JInt 10]> ∅))).

Definition legacy_document : gmap string json :=
  <["Old" := preset_entry (JDict old_spacing)]>
  (<["New" := preset_entry (JDict (spacing_record 1 2 3 4))]> ∅).

Definition legacy_disk : disk :=
  Disk (Some (Document (JDict legacy_document))) true [].

(** A document whose only record stores one of the four keys. *)
Definition partial_spacing : gmap string json := <["image_x" := JInt 5]> ∅.

Definition partial_document : gmap string json :=
  <["A" := preset_entry (JDict partial_spacing)]> ∅.

Definition partial_disk : disk :=
  Disk (Some (Document (JDict partial_document))) true [].

(** A value that is no container: [in] and subscripting raise on it. *)
Definition scalar (v : json) : Prop :=
  match v with
  | JNull | JBool _ | JInt _ => True
  | _ => False
  end.

(** A session as the handlers leave it: its spacing is a dict in which the
    four offsets are numbers. *)
Definition well_formed_session (s : session) : Prop :=
  ∃ sp, spacing s = Some (JDict sp) ∧
        offsets_readable SPACING_KEYS (JDict sp) = true.

Definition well_formed_world (w : world) : Prop :=
  map_Forall (λ _, well_formed_session) (user_data w).

(** The sample platform with a group that cannot be reached. *)
Definition offline_platform : Platform :=
  ascii_platform sample_images sample_bbox false.

(** A second user, who has only opened the settings. *)
Definition other_session : session :=
  set_spacing (JDict DEFAULT_SPACING) empty_session.

Definition shared_world : world :=
  World (<[8 := other_session]> {[7 := sample_session]}) empty_disk [].

(** A document with a record that is a number. *)
Definition broken_document : gmap string json :=
  <["Bad" := JInt 5]> (<["New" := preset_entry (JDict (spacing_record 1 2 3 4))]> ∅).

Definition broken_disk : disk :=
  Disk (Some (Document (JDict broken_document))) true [].

(** A document with two presets in the current format. *)
Definition stored_document : gmap string json :=
  <["Demo" := preset_entry (JDict (spacing_record 20 (-10) 0 5))]>
  (<["New" := preset_entry (JDict (spacing_record 1 2 3 4))]> ∅).

Definition stored_disk : disk :=
  Disk (Some (Document (JDict stored_document))) true [].

(** A document whose only preset has no spacing. *)
Definition bare_document : gmap string json := <["A" := JDict ∅]> ∅.

Definition bare_disk : disk :=
  Disk (Some (Document (JDict bare_document))) true [].

(** The text of the button of the second direction, as the position menu
    shows it. *)
Definition image_y_button : string := IMAGE_Y_TEXT +:+ " (Center)".

(** * Properties *)

(** ** The compositor *)

Lemma spec_clamp_empty (v lo hi : Z) : hi < lo → spec_clamp v lo hi = lo.
Proof. unfold spec_clamp. lia. Qed.

Lemma spec_clamp_within (v lo hi : Z) : lo <= hi → within lo hi (spec_clamp v lo hi).
Proof. unfold spec_clamp, within. lia. Qed.

(** For the fixed side of 400 the centre minus half the side, as the code
    computes it, is the floor of half the difference, as the
    specification writes it. *)
Lemma centre_minus_half (main_dim : Z) :
  main_dim / 2 - REF_IMAGE_SIZE / 2 = (main_dim - REF_IMAGE_SIZE) / 2.
Proof.
  unfold REF_IMAGE_SIZE.
  replace (main_dim - 400) with (main_dim + (-200) * 2) by lia.
  rewrite Z.div_add by lia. reflexivity.
Qed.

Lemma ref_position_spec (main_w main_h image_x image_y : Z) :
  ref_position main_w main_h image_x image_y =
    (spec_ref_anchor main_w REF_IMAGE_SIZE image_x,
     spec_ref_anchor main_h REF_IMAGE_SIZE image_y).
Proof.
  unfold ref_position, spec_ref_anchor, spec_clamp.
  cbv zeta. rewrite !centre_minus_half. reflexivity.
Qed.

Lemma text_position_spec (main_w main_h text_w text_h text_x text_y : Z) :
  text_position main_w main_h text_w text_h text_x text_y =
    (spec_clamp ((main_w - text_w) / 2 + text_x) 10 (main_w - text_w - 10),
     spec_clamp (main_h - text_h - 30 + text_y) 10 (main_h - text_h - 10)).
Proof. reflexivity. Qed.

Section Compositor.
Context `{Platform}.

(** What a composition that was built says about the session it was built
    from. *)
Lemma compose_Some (s : session) (name : string) (doc : composition) :
  compose s name = Some doc →
  ∃ main ref main_w main_h sp image_x image_y text_x text_y x0 y0 x1 y1,
    first_photo s = Some main ∧ second_photo s = Some ref ∧
    open_image main = Some (main_w, main_h) ∧ is_Some (open_image ref) ∧
    spacing s = Some sp ∧
    read_offset sp "image_x" = Some image_x ∧
    read_offset sp "image_y" = Some image_y ∧
    read_offset sp "text_x" = Some text_x ∧
    read_offset sp "text_y" = Some text_y ∧
    font_getbbox name = (x0, y0, x1, y1) ∧
    doc = {| canvas_mode := if has_transparency s then RGBA else RGB;
             ref_mode := if has_transparency s then RGBA else RGB;
             canvas_size := (main_w, main_h);
             ref_anchor := ref_position main_w main_h image_x image_y;
             masked_paste := has_transparency s;
             label := name;
             text_extent := (x1 - x0, y1 - y0);
             text_anchor := text_position main_w main_h (x1 - x0) (y1 - y0)
                              text_x text_y;
             out_format := if has_transparency s then PNG else JPEG 95;
             out_name := if has_transparency s then "merged_image.png"
                         else "merged_image.jpg" |}.
Proof.
  unfold compose. intros Hc.
  destruct (first_photo s) as [main|]; [|discriminate].
  destruct (second_photo s) as [ref|]; [|discriminate].
  cbn in Hc.
  destruct (open_image main) as [[main_w main_h]|] eqn:Hmain; [|discriminate].
  destruct (open_image ref) as [sz|] eqn:Href; [|discriminate].
  cbn in Hc.
  destruct (spacing s) as [sp|]; [|discriminate]. cbn in Hc.
  destruct (read_offset sp "image_x") as [image_x|] eqn:Hix; [|discriminate].
  destruct (read_offset sp "image_y") as [image_y|] eqn:Hiy; [|discriminate].
  cbn in Hc.
  destruct (font_getbbox name) as [[[x0 y0] x1] y1] eqn:Hbox.
  destruct (read_offset sp "text_x") as [text_x|] eqn:Htx; [|discriminate].
  destruct (read_offset sp "text_y") as [text_y|] eqn:Hty; [|discriminate].
  cbn in Hc. injection Hc as <-.
  exists main, ref, main_w, main_h, sp, image_x, image_y, text_x, text_y,
    x0, y0, x1, y1.
  repeat split; eauto.
Qed.

(** C1: for a composition that is built, with the main image of size
    [(main_w, main_h)] and the offsets [image_x], [image_y] of the session,
    the reference is pasted at
    [clamp((main_w - 400)/2 + image_x, 0, main_w - 400)] on X and at the
    same expression in [main_h] and [image_y] on Y, each axis on its own;
    on an axis where the main image is smaller than 400 the anchor is 0. *)
Theorem ref_anchor_is_clamped_centre (s : session) (name : string) (doc : composition) :
  compose s name = Some doc →
  ∃ main main_w main_h sp image_x image_y,
    first_photo s = Some main ∧ open_image main = Some (main_w, main_h) ∧
    spacing s = Some sp ∧
    read_offset sp "image_x" = Some image_x ∧
    read_offset sp "image_y" = Some image_y ∧
    REF_IMAGE_SIZE = 400 ∧
    ref_anchor doc =
      (spec_clamp ((main_w - 400) / 2 + image_x) 0 (main_w - 400),
       spec_clamp ((main_h - 400) / 2 + image_y) 0 (main_h - 400)) ∧
    (main_w < 400 → (ref_anchor doc).1 = 0) ∧
    (main_h < 400 → (ref_anchor doc).2 = 0).
Proof.
  intros Hc.
  destruct (compose_Some _ _ _ Hc)
    as (main & ref & main_w & main_h & sp & image_x & image_y & text_x & text_y
        & x0 & y0 & x1 & y1 & Hm & _ & Hom & _ & Hsp & Hx & Hy & _ & _ & _ & ->).
  exists main, main_w, main_h, sp, image_x, image_y.
  cbn [ref_anchor]. rewrite ref_position_spec.
  unfold spec_ref_anchor, REF_IMAGE_SIZE. cbn [fst snd].
  repeat split; try assumption.
  - intros Hw. apply spec_clamp_empty. lia.
  - intros Hh. apply spec_clamp_empty. lia.
Qed.

(** C2, as amended: in a composition that is built the reference anchor is
    never below 0 and the text anchor never below 10; on an axis where the
    upper bound ([main - 400], or [main - extent - 10] for the text) is not
    below that lower bound the anchor is within the two, and on an axis
    where it is below, the anchor is the lower bound itself. *)
Theorem anchors_bounded (s : session) (name : string) (doc : composition) :
  compose s name = Some doc →
  let '(main_w, main_h) := canvas_size doc in
  let '(text_w, text_h) := text_extent doc in
  let '(ref_x, ref_y) := ref_anchor doc in
  let '(text_x, text_y) := text_anchor doc in
  (0 <= ref_x ∧ 0 <= ref_y ∧ 10 <= text_x ∧ 10 <= text_y) ∧
  (400 <= main_w → within 0 (main_w - 400) ref_x) ∧
  (400 <= main_h → within 0 (main_h - 400) ref_y) ∧
  (text_w <= main_w - 20 → within 10 (main_w - text_w - 10) text_x) ∧
  (text_h <= main_h - 20 → within 10 (main_h - text_h - 10) text_y) ∧
  (main_w < 400 → ref_x = 0) ∧
  (main_h < 400 → ref_y = 0) ∧
  (main_w - 20 < text_w → text_x = 10) ∧
  (main_h - 20 < text_h → text_y = 10).
Proof.
  intros Hc.
  destruct (compose_Some _ _ _ Hc)
    as (main & ref & main_w & main_h & sp & image_x & image_y & text_x & text_y
        & x0 & y0 & x1 & y1 & _ & _ & _ & _ & _ & _ & _ & _ & _ & _ & ->).
  cbn [canvas_size text_extent ref_anchor text_anchor].
  unfold ref_position, text_position, within, REF_IMAGE_SIZE. cbv zeta.
  repeat split; intros; lia.
Qed.

(** The mode of decoding and the format of the output follow
    [has_transparency]. *)
Lemma compose_formats (s : session) (name : string) (doc : composition) :
  compose s name = Some doc →
  if has_transparency s
  then canvas_mode doc = RGBA ∧ ref_mode doc = RGBA ∧ out_format doc = PNG
  else canvas_mode doc = RGB ∧ ref_mode doc = RGB ∧ out_format doc = JPEG 95.
Proof.
  intros Hc.
  destruct (compose_Some _ _ _ Hc)
    as (main & ref & main_w & main_h & sp & image_x & image_y & text_x & text_y
        & x0 & y0 & x1 & y1 & _ & _ & _ & _ & _ & _ & _ & _ & _ & _ & ->).
  cbn. destruct (has_transparency s); auto.
Qed.

End Compositor.

(** ** Transparency *)

Lemma classify_png (msg : message) (m : media) (d : bool)
    (mime old : option string) :
  classify_message msg = Stored m d mime →
  d && bool_decide (match mime with Some x => Some x | None => old end
                    = Some "image/png")
  = is_png_document msg.
Proof.
  destruct msg as [t|sizes|doc [mt|]]; cbn; try discriminate.
  - destruct (last sizes); [|discriminate]. intros [= <- <- <-]. reflexivity.
  - destruct (String.prefix "image/" mt); [|discriminate].
    intros [= <- <- <-]. cbn.
    destruct (String.eqb_spec mt "image/png") as [->|Hne].
    + apply bool_decide_eq_true_2. reflexivity.
    + apply bool_decide_eq_false_2. congruence.
Qed.

Section Transparency.
Context `{Platform}.

Lemma first_image_stored (u : user) (msg : message) (w w1 : world) :
  first_image u msg w = (Return SECOND_IMAGE, w1) →
  ∃ m d mime s0,
    classify_message msg = Stored m d mime ∧
    user_data w1 !! user_id u = Some (set_first m d mime s0).
Proof.
  unfold first_image.
  destruct (classify_message msg) as [m d mime| |] eqn:Hcl; try discriminate.
  set (s0 := set_user_info _ _).
  destruct (spacing s0) as [sp|]; [|discriminate].
  destruct (offsets_readable _ sp); [|discriminate].
  intros [= <-]. exists m, d, mime, s0. split; [reflexivity|].
  cbn. apply lookup_insert_eq.
Qed.

Lemma second_image_stored (uid : Z) (msg : message) (w w2 : world) :
  second_image uid msg w = (Return NAME, w2) →
  ∃ m d mime s1,
    classify_message msg = Stored m d mime ∧
    user_data w !! uid = Some s1 ∧
    user_data w2 !! uid = Some (set_second m d mime s1).
Proof.
  unfold second_image.
  destruct (bool_decide _); [unfold cancel; discriminate|].
  destruct (classify_message msg) as [m d mime| |] eqn:Hcl; try discriminate.
  destruct (user_data w !! uid) as [s1|] eqn:Hs1; [|discriminate].
  intros [= <-]. exists m, d, mime, s1. repeat split.
  cbn. apply lookup_insert_eq.
Qed.

(** C3: once the main image and the reference have been taken in, the
    session says "preserve transparency" exactly when one of the two
    messages delivered a document of MIME type [image/png]; a composition
    built from that session converts both images to RGBA and is encoded as
    PNG when it does, and converts both to RGB and is encoded as JPEG of
    quality 95 when it does not. *)
Theorem transparency_iff_png_document
    (u : user) (msg1 msg2 : message) (w w1 w2 : world) :
  first_image u msg1 w = (Return SECOND_IMAGE, w1) →
  second_image (user_id u) msg2 w1 = (Return NAME, w2) →
  ∃ s, user_data w2 !! user_id u = Some s ∧
    (has_transparency s = true ↔
       is_png_document msg1 = true ∨ is_png_document msg2 = true) ∧
    ∀ name doc, compose s name = Some doc →
      (has_transparency s = true ∧ canvas_mode doc = RGBA ∧
         ref_mode doc = RGBA ∧ out_format doc = PNG) ∨
      (has_transparency s = false ∧ canvas_mode doc = RGB ∧
         ref_mode doc = RGB ∧ out_format doc = JPEG 95).
Proof.
  intros H1 H2.
  destruct (first_image_stored _ _ _ _ H1) as (m1 & d1 & mime1 & s0 & Hc1 & Hs1).
  destruct (second_image_stored _ _ _ _ H2)
    as (m2 & d2 & mime2 & s1 & Hc2 & Hs1' & Hs2).
  rewrite Hs1 in Hs1'. injection Hs1' as <-.
  eexists. split; [exact Hs2|]. split.
  - unfold has_transparency. cbn.
    rewrite (classify_png _ _ _ _ _ Hc1), (classify_png _ _ _ _ _ Hc2).
    rewrite orb_true_iff. reflexivity.
  - intros name doc Hdoc. pose proof (compose_formats _ _ _ Hdoc) as Hf.
    destruct (has_transparency _); [left|right]; tauto.
Qed.

End Transparency.

(** ** The preset repository *)

Lemma py_in_dict (k : string) (d : gmap string json) :
  py_in k (JDict d) = Some (bool_decide (is_Some (d !! k))).
Proof. reflexivity. Qed.

Lemma migrate_record_dict (d : gmap string json) :
  migrate_record (JDict d) =
    match d !! "spacing" with
    | Some sp =>
        has_top ← py_in "top" sp;
        if has_top : bool then
          has_image_x ← py_in "image_x" sp;
          if has_image_x : bool then Some (JDict d, false)
          else Some (JDict (<["spacing" := JDict DEFAULT_SPACING]> d), true)
        else Some (JDict d, false)
    | None => Some (JDict d, false)
    end.
Proof.
  unfold migrate_record, py_getitem, py_setitem.
  rewrite (py_in_dict "spacing" d).
  destruct (d !! "spacing") as [sp|] eqn:Hsp.
  - rewrite bool_decide_eq_true_2 by eauto. reflexivity.
  - rewrite bool_decide_eq_false_2 by (intros [? ?]; discriminate). reflexivity.
Qed.

Lemma default_spacing_settled (d : gmap string json) :
  settled (JDict (<["spacing" := JDict DEFAULT_SPACING]> d)).
Proof.
  unfold settled. rewrite migrate_record_dict, lookup_insert_eq. reflexivity.
Qed.

Lemma migrate_record_settles (pd pd' : json) (b : bool) :
  migrate_record pd = Some (pd', b) → settled pd'.
Proof.
  intros Hm. destruct b.
  - (* only the rewrite sets the flag *)
    unfold migrate_record in Hm.
    destruct (py_in "spacing" pd) as [[|]|]; cbn in Hm; try discriminate.
    destruct (py_getitem pd "spacing") as [sp|]; cbn in Hm; [|discriminate].
    destruct (py_in "top" sp) as [[|]|]; cbn in Hm; try discriminate.
    destruct (py_in "image_x" sp) as [[|]|]; cbn in Hm; try discriminate.
    destruct pd; cbn in Hm; try discriminate.
    injection Hm as <-. apply default_spacing_settled.
  - assert (pd' = pd) as ->; [|exact Hm].
    unfold migrate_record in Hm.
    destruct (py_in "spacing" pd) as [[|]|]; cbn in Hm; try congruence.
    destruct (py_getitem pd "spacing") as [sp|]; cbn in Hm; [|discriminate].
    destruct (py_in "top" sp) as [[|]|]; cbn in Hm; try congruence.
    destruct (py_in "image_x" sp) as [[|]|]; cbn in Hm; try congruence.
    destruct (py_setitem pd "spacing" _); cbn in Hm; discriminate.
Qed.

Lemma migrate_items_spec (l l' : list (string * json)) (b : bool) :
  migrate_items l = Some (l', b) →
  l' = prod_map id migrated <$> l ∧
  (b = true ↔ ∃ k pd pd', (k, pd) ∈ l ∧ migrate_record pd = Some (pd', true)).
Proof.
  revert l' b. induction l as [|[k pd] l IH]; intros l' b; cbn -[migrate_record].
  - intros [= <- <-]. split; [reflexivity|].
    split; [discriminate|]. intros (? & ? & ? & Hin & _). inversion Hin.
  - destruct (migrate_record pd) as [[pd1 m]|] eqn:Hpd; cbn -[migrate_record]; [|discriminate].
    destruct (migrate_items l) as [[rest ms]|]; cbn -[migrate_record]; [|discriminate].
    intros [= <- <-]. destruct (IH _ _ eq_refl) as [-> Hms]. split.
    + unfold migrated. rewrite Hpd. reflexivity.
    + rewrite orb_true_iff, Hms. split.
      * intros [->|(k' & pd' & pd'' & Hin & Hm)].
        -- exists k, pd, pd1. split; [left|assumption].
        -- exists k', pd', pd''. split; [right; assumption|assumption].
      * intros (k' & pd' & pd'' & Hin & Hm).
        apply elem_of_cons in Hin as [[= -> ->]|Hin].
        -- left. congruence.
        -- right. eauto.
Qed.

Lemma migrate_items_no_raise (l : list (string * json)) :
  Forall (λ kv, is_Some (migrate_record kv.2)) l → is_Some (migrate_items l).
Proof.
  induction 1 as [|[k pd] l [[pd' m] Hpd] _ [[rest ms] IH]]; cbn -[migrate_record]; [eauto|].
  cbn in Hpd. rewrite Hpd. cbn -[migrate_record]. rewrite IH. cbn. eauto.
Qed.

Lemma migrate_items_settled (l : list (string * json)) :
  Forall (λ kv, settled kv.2) l → migrate_items l = Some (l, false).
Proof.
  induction 1 as [|[k pd] l Hpd _ IH]; cbn -[migrate_record]; [reflexivity|].
  cbn in Hpd. unfold settled in Hpd. rewrite Hpd. cbn -[migrate_record]. rewrite IH. reflexivity.
Qed.

(** A document whose records are all settled is returned as it is, and
    the file is not written. *)
Lemma load_presets_settled (fs : disk) (m : gmap string json) :
  presets_file fs = Some (Document (JDict m)) →
  map_Forall (λ _, settled) m →
  load_presets fs = (m, fs).
Proof.
  intros Hfile Hm. unfold load_presets. rewrite Hfile.
  rewrite migrate_items_settled.
  - rewrite list_to_map_to_list. reflexivity.
  - apply map_Forall_to_list in Hm.
    eapply Forall_impl; [exact Hm|]. intros [k pd]. auto.
Qed.

Lemma migrate_items_settles (l l' : list (string * json)) (b : bool) :
  migrate_items l = Some (l', b) → Forall (λ kv, settled kv.2) l'.
Proof.
  revert l' b. induction l as [|[k pd] l IH]; intros l' b; cbn -[migrate_record].
  - intros [= <- <-]. constructor.
  - destruct (migrate_record pd) as [[pd1 m]|] eqn:Hpd; cbn -[migrate_record]; [|discriminate].
    destruct (migrate_items l) as [[rest ms]|]; cbn -[migrate_record]; [|discriminate].
    intros [= <- <-]. constructor.
    + eapply migrate_record_settles. exact Hpd.
    + eapply IH. reflexivity.
Qed.

(** Whatever the file holds, the records [load_presets] returns are
    settled. *)
Lemma load_presets_returns_settled (fs : disk) :
  map_Forall (λ _, settled) (load_presets fs).1.
Proof.
  unfold load_presets.
  destruct (presets_file fs) as [[|[| | | | |m]]|]; try apply map_Forall_empty.
  destruct (migrate_items (map_to_list m)) as [[items b]|] eqn:Hitems;
    [|apply map_Forall_empty].
  assert (map_Forall (λ _ : string, settled)
            (list_to_map items : gmap string json)) as Hall.
  { intros k pd Hk. apply elem_of_list_to_map_2 in Hk.
    pose proof (migrate_items_settles _ _ _ Hitems) as Hs.
    rewrite Forall_forall in Hs. exact (Hs _ Hk). }
  destruct b; [destruct (dump_presets _ fs)|]; exact Hall.
Qed.

Lemma load_presets_writable (fs : disk) :
  writable (load_presets fs).2 = writable fs.
Proof.
  unfold load_presets.
  destruct (presets_file fs) as [[|[| | | | |m]]|]; try reflexivity.
  destruct (migrate_items (map_to_list m)) as [[items [|]]|]; try reflexivity.
  unfold dump_presets. destruct (writable fs) eqn:Hw; cbn; congruence.
Qed.

Lemma old_format_migrated (d sp : gmap string json) :
  d !! "spacing" = Some (JDict sp) → old_format sp →
  migrate_record (JDict d)
  = Some (JDict (<["spacing" := JDict DEFAULT_SPACING]> d), true).
Proof.
  intros Hsp [Htop Hix]. rewrite migrate_record_dict, Hsp, !py_in_dict.
  rewrite (bool_decide_eq_true_2 (is_Some (sp !! "top"))) by assumption.
  rewrite (bool_decide_eq_false_2 (is_Some (sp !! "image_x"))); [reflexivity|].
  rewrite Hix. intros [? ?]; discriminate.
Qed.

Lemma current_format_settled (d sp : gmap string json) :
  d !! "spacing" = Some (JDict sp) → ¬ old_format sp → settled (JDict d).
Proof.
  intros Hsp Hold. unfold settled. rewrite migrate_record_dict, Hsp, !py_in_dict.
  destruct (decide (is_Some (sp !! "top"))) as [Htop|Htop].
  - rewrite (bool_decide_eq_true_2 (is_Some (sp !! "top"))) by assumption.
    rewrite (bool_decide_eq_true_2 (is_Some (sp !! "image_x"))); [reflexivity|].
    destruct (sp !! "image_x") eqn:Hix; [eauto|].
    exfalso. apply Hold. split; assumption.
  - rewrite (bool_decide_eq_false_2 (is_Some (sp !! "top"))) by assumption.
    reflexivity.
Qed.

Lemma preset_record_no_raise (pd : json) :
  preset_record pd → is_Some (migrate_record pd).
Proof.
  intros (d & -> & Hd). rewrite migrate_record_dict.
  destruct (d !! "spacing") as [sp0|] eqn:Hsp0; [|eauto].
  destruct (Hd _ eq_refl) as [s0 ->]. rewrite !py_in_dict.
  destruct (bool_decide (is_Some (s0 !! "top")));
    destruct (bool_decide (is_Some (s0 !! "image_x"))); eexists; reflexivity.
Qed.

Lemma spacing_record_lookup (ix iy tx ty : Z) :
  spacing_record ix iy tx ty !! "image_x" = Some (JInt ix) ∧
  spacing_record ix iy tx ty !! "image_y" = Some (JInt iy) ∧
  spacing_record ix iy tx ty !! "text_x" = Some (JInt tx) ∧
  spacing_record ix iy tx ty !! "text_y" = Some (JInt ty).
Proof. repeat split; reflexivity. Qed.

Section Repository.
Context `{Platform}.

(** C4: when [save_preset] stores the session's four offsets under the
    name [n] (the stripped text of the message, not empty) and the file
    can be written, every later [load_presets] of that document, by
    whatever instance reads it, returns under [n] a record whose spacing
    is the one saved, field by field, and leaves the file as it is. *)
Theorem save_then_load_roundtrip
    (uid : Z) (text n : string) (w : world) (s : session)
    (ix iy tx ty : Z) :
  text ≠ BACK_TEXT → str_strip text = n → n ≠ EmptyString →
  user_data w !! uid = Some s →
  spacing s = Some (JDict (spacing_record ix iy tx ty)) →
  writable (files w) = true →
  (save_preset uid text w).1 = Return SETTINGS ∧
  ∀ fs, presets_file fs = presets_file (files (save_preset uid text w).2) →
    ∃ stored,
      (load_presets fs).1 !! n = Some (preset_entry (JDict stored)) ∧
      stored !! "image_x" = Some (JInt ix) ∧
      stored !! "image_y" = Some (JInt iy) ∧
      stored !! "text_x" = Some (JInt tx) ∧
      stored !! "text_y" = Some (JInt ty) ∧
      stored = spacing_record ix iy tx ty ∧
      (load_presets fs).2 = fs.
Proof.
  intros Hback Hstrip Hne Hs Hsp Hw. unfold save_preset.
  rewrite (proj2 (String.eqb_neq _ _) Hback), Hstrip.
  rewrite (proj2 (String.eqb_neq _ _) Hne), Hs, Hsp.
  pose proof (load_presets_writable (files w)) as Hw1.
  pose proof (load_presets_returns_settled (files w)) as Hset.
  destruct (load_presets (files w)) as [presets fs1]. cbn [fst snd] in Hw1, Hset.
  unfold save_presets, dump_presets. rewrite Hw1, Hw. cbn [fst snd files with_files].
  split; [reflexivity|]. intros fs Hfs. cbn in Hfs.
  rewrite (load_presets_settled fs _ Hfs).
  - exists (spacing_record ix iy tx ty). cbn [fst snd].
    rewrite lookup_insert_eq.
    destruct (spacing_record_lookup ix iy tx ty) as (? & ? & ? & ?).
    repeat split; assumption.
  - apply map_Forall_insert_2; [|exact Hset].
    eapply current_format_settled; [apply lookup_insert_eq|].
    intros [_ Hix]. discriminate Hix.
Qed.

End Repository.

(** C5: in a preset document whose records are objects, a record in the
    old format (["top"] among the keys of its spacing, ["image_x"] not) is
    returned by [load_presets] with the spacing [{0, 0, 0, 0}], and the
    whole document, as returned, is written to the file once; a second
    load writes nothing and returns the same presets. *)
Theorem legacy_record_migrated_once
    (fs : disk) (m : gmap string json) (name : string)
    (rec sp : gmap string json) :
  presets_file fs = Some (Document (JDict m)) →
  map_Forall (λ _, preset_record) m →
  m !! name = Some (JDict rec) →
  rec !! "spacing" = Some (JDict sp) →
  old_format sp →
  writable fs = true →
  let '(presets1, fs1) := load_presets fs in
  presets1 !! name = Some (JDict (<["spacing" := JDict DEFAULT_SPACING]> rec)) ∧
  write_log fs1 = write_log fs ++ [JDict presets1] ∧
  presets_file fs1 = Some (Document (JDict presets1)) ∧
  load_presets fs1 = (presets1, fs1).
Proof.
  intros Hfile Hdoc Hname Hsp Hold Hw.
  pose proof (load_presets_returns_settled fs) as Hset.
  unfold load_presets in *. rewrite Hfile in *.
  destruct (migrate_items (map_to_list m)) as [[items b]|] eqn:Hitems.
  - destruct (migrate_items_spec _ _ _ Hitems) as [-> Hb].
    assert (b = true) as ->.
    { apply Hb.
      exists name, (JDict rec), (JDict (<["spacing" := JDict DEFAULT_SPACING]> rec)).
      split.
      - apply elem_of_map_to_list. exact Hname.
      - eapply old_format_migrated; eassumption. }
    unfold dump_presets in *. rewrite Hw in *. cbn [fst snd] in *.
    rewrite list_to_map_fmap, list_to_map_to_list in *.
    repeat split.
    + rewrite lookup_fmap, Hname. cbn. unfold migrated.
      rewrite (old_format_migrated _ _ Hsp Hold). reflexivity.
    + fold (load_presets (Disk (Some (Document (JDict (migrated <$> m)))) true
                            (write_log fs ++ [JDict (migrated <$> m)]))).
      apply load_presets_settled; [reflexivity|exact Hset].
  - exfalso.
    assert (is_Some (migrate_items (map_to_list m))) as [? Hsome];
      [|congruence].
    apply migrate_items_no_raise. apply map_Forall_to_list in Hdoc.
    eapply Forall_impl; [exact Hdoc|]. intros [k pd] Hpd.
    apply preset_record_no_raise. exact Hpd.
Qed.

(** A document of preset records is returned record by record as the
    migration loop leaves it. *)
Lemma load_presets_document (fs : disk) (m : gmap string json) :
  presets_file fs = Some (Document (JDict m)) →
  map_Forall (λ _, preset_record) m →
  (load_presets fs).1 = migrated <$> m.
Proof.
  intros Hfile Hdoc. unfold load_presets. rewrite Hfile.
  destruct (migrate_items (map_to_list m)) as [[items b]|] eqn:Hitems.
  - destruct (migrate_items_spec _ _ _ Hitems) as [-> _].
    rewrite list_to_map_fmap, list_to_map_to_list.
    destruct b; [destruct (dump_presets _ fs)|]; reflexivity.
  - exfalso.
    assert (is_Some (migrate_items (map_to_list m))) as [? Hsome];
      [|congruence].
    apply migrate_items_no_raise. apply map_Forall_to_list in Hdoc.
    eapply Forall_impl; [exact Hdoc|]. intros [k pd] Hpd.
    apply preset_record_no_raise. exact Hpd.
Qed.

Lemma fill_key_dict (k : string) (d : gmap string json) :
  fill_key k (JDict d) = Some (JDict (d ∪ {[k := JInt 0]})).
Proof.
  unfold fill_key. rewrite py_in_dict.
  destruct (d !! k) as [v|] eqn:Hk.
  - rewrite bool_decide_eq_true_2 by eauto. cbn [mbind option_bind].
    do 2 f_equal. apply map_eq. intros i. rewrite lookup_union.
    destruct (decide (i = k)) as [->|Hne].
    + rewrite Hk, lookup_singleton_eq. reflexivity.
    + rewrite lookup_singleton_ne by congruence. destruct (d !! i); reflexivity.
  - rewrite bool_decide_eq_false_2 by (intros [? ?]; discriminate).
    cbn [mbind option_bind py_setitem].
    rewrite insert_union_singleton_r by assumption. reflexivity.
Qed.

(** On a dict the four fills add the default of every absent key and keep
    what is there. *)
Lemma fill_missing_keys_dict (d : gmap string json) :
  fill_missing_keys (JDict d) = Some (JDict (d ∪ DEFAULT_SPACING)).
Proof.
  unfold fill_missing_keys.
  rewrite fill_key_dict. cbn [mbind option_bind].
  rewrite fill_key_dict. cbn [mbind option_bind].
  rewrite fill_key_dict. cbn [mbind option_bind].
  rewrite fill_key_dict. do 2 f_equal.
  rewrite <- !(assoc_L (∪)). f_equal.
Qed.

Lemma filled_lookup (d : gmap string json) (k : string) :
  k ∈ SPACING_KEYS →
  (d ∪ DEFAULT_SPACING) !! k = Some (default (JInt 0) (d !! k)).
Proof.
  intros Hk. rewrite lookup_union.
  assert (DEFAULT_SPACING !! k = Some (JInt 0)) as ->.
  { unfold SPACING_KEYS in Hk.
    repeat (apply elem_of_cons in Hk as [->|Hk]; [reflexivity|]).
    inversion Hk. }
  destruct (d !! k); reflexivity.
Qed.

Lemma filled_copy_dict (rec sp : gmap string json) :
  rec !! "spacing" = Some (JDict sp) →
  filled_copy (JDict rec) = Some (JDict (sp ∪ DEFAULT_SPACING)).
Proof.
  intros Hsp. unfold filled_copy, py_getitem. rewrite Hsp.
  cbn [mbind option_bind py_copy]. apply fill_missing_keys_dict.
Qed.

Section Consumers.
Context `{Platform}.

(** C6, as amended: of a stored record that is not in the old format
    [load_presets] returns the spacing as it is stored, the absent keys
    still absent.  The keys are filled in by the consumers: the copy that
    [load_preset], [edit_preset] and [start_new_image] put in the session,
    and the spacing [presets_menu] reads for its button, have every key of
    the four, with the stored value where there is one and 0 where there
    is none. *)
Theorem missing_keys_filled_by_consumers
    (w : world) (m : gmap string json) (name : string)
    (rec sp : gmap string json) (uid : Z) (text : string) :
  presets_file (files w) = Some (Document (JDict m)) →
  map_Forall (λ _, preset_record) m →
  m !! name = Some (JDict rec) →
  rec !! "spacing" = Some (JDict sp) →
  ¬ old_format sp →
  (load_presets (files w)).1 !! name = Some (JDict rec) ∧
  filled_copy (JDict rec) = Some (JDict (sp ∪ DEFAULT_SPACING)) ∧
  (∀ k, k ∈ SPACING_KEYS →
     (sp ∪ DEFAULT_SPACING) !! k = Some (default (JInt 0) (sp !! k))) ∧
  (∃ w', load_preset uid (Some name) text w = (Return SETTINGS, w') ∧
         user_data w' !! uid ≫= spacing = Some (JDict (sp ∪ DEFAULT_SPACING))) ∧
  (text ≠ BACK_TEXT → String.prefix "Edit:" text = true →
   button_name "Edit:" text = name →
   ∃ w', edit_preset uid text w = (Return SETTINGS, w') ∧
         user_data w' !! uid ≫= spacing = Some (JDict (sp ∪ DEFAULT_SPACING))) ∧
  (∀ s, user_data w !! uid = Some s → last_preset s = Some name →
   ∃ w', apply_last_preset uid w = Some (w', Some (JDict (sp ∪ DEFAULT_SPACING))) ∧
         user_data w' !! uid ≫= spacing = Some (JDict (sp ∪ DEFAULT_SPACING))) ∧
  preset_button (name, JDict rec) =
    (image_x ← read_offset (JDict (sp ∪ DEFAULT_SPACING)) "image_x";
     image_y ← read_offset (JDict (sp ∪ DEFAULT_SPACING)) "image_y";
     Some [(name, image_x, image_y)]).
Proof.
  intros Hfile Hdoc Hname Hsp Hold.
  assert ((load_presets (files w)).1 !! name = Some (JDict rec)) as Hload.
  { rewrite (load_presets_document _ _ Hfile Hdoc), lookup_fmap, Hname.
    cbn [fmap option_fmap option_map]. unfold migrated.
    rewrite (current_format_settled _ _ Hsp Hold). reflexivity. }
  pose proof (filled_copy_dict _ _ Hsp) as Hcopy.
  split; [exact Hload|]. split; [exact Hcopy|].
  split; [intros k Hk; apply filled_lookup; exact Hk|].
  split; [|split; [|split]].
  - unfold load_preset.
    destruct (load_presets (files w)) as [presets fs1]. cbn [fst] in Hload.
    rewrite Hload, py_in_dict, Hsp.
    rewrite bool_decide_eq_true_2 by eauto. rewrite Hcopy.
    eexists. split; [reflexivity|].
    cbn [user_data send with_user_data]. rewrite lookup_insert_eq. reflexivity.
  - intros Hback Hprefix Hbutton. unfold edit_preset.
    rewrite (proj2 (String.eqb_neq _ _) Hback), Hprefix, Hbutton.
    destruct (load_presets (files w)) as [presets fs1]. cbn [fst] in Hload.
    rewrite Hload, py_in_dict, Hsp.
    rewrite bool_decide_eq_true_2 by eauto. rewrite Hcopy.
    eexists. split; [reflexivity|].
    cbn [user_data send with_user_data]. rewrite lookup_insert_eq. reflexivity.
  - intros s Hs Hlast. unfold apply_last_preset. rewrite Hs, Hlast.
    destruct (load_presets (files w)) as [presets fs1]. cbn [fst] in Hload.
    rewrite Hload, py_in_dict, Hsp.
    rewrite bool_decide_eq_true_2 by eauto.
    cbn [mbind option_bind]. rewrite Hcopy. cbn [mbind option_bind].
    eexists. split; [reflexivity|].
    cbn [user_data with_user_data]. rewrite lookup_insert_eq. reflexivity.
  - unfold preset_button. rewrite py_in_dict, Hsp.
    rewrite bool_decide_eq_true_2 by eauto.
    cbn [mbind option_bind py_getitem]. rewrite Hsp.
    cbn [mbind option_bind]. rewrite fill_missing_keys_dict. reflexivity.
Qed.

End Consumers.

(** ** Sessions at the end of a job *)

Section Jobs.
Context `{Platform}.

(** C7, as amended: [cancel], and [process_name] when the composition is
    built and delivered, leave of the session the [spacing] field alone
    (if it had one): the media, the document flags and MIME types, the
    pending spacing key, the user info, the name of the preset being
    edited and the name of the last preset are all cleared. *)
Theorem job_end_keeps_only_spacing (uid : Z) (w : world) (s : session) :
  user_data w !! uid = Some s →
  (cancel uid w).1 = Return END ∧
  user_data (cancel uid w).2 !! uid = Some (settings_data s) ∧
  (∀ text doc info,
     text ≠ CANCEL_TEXT → compose s text = Some doc → user_info s = Some info →
     (process_name uid text w).1 = Return END ∧
     SendDocument doc ∈ outbox (process_name uid text w).2 ∧
     user_data (process_name uid text w).2 !! uid = Some (settings_data s)) ∧
  settings_data s =
    {| spacing := spacing s; current_spacing_key := None;
       first_photo := None; first_is_document := None; first_mime_type := None;
       second_photo := None; second_is_document := None;
       second_mime_type := None; user_info := None;
       editing_preset := None; last_preset := None |}.
Proof.
  intros Hs. unfold cancel. rewrite Hs. cbn [fst snd user_data send with_user_data].
  split; [reflexivity|]. split; [apply lookup_insert_eq|].
  split; [|reflexivity].
  intros text doc [[i fn] un] Hcancel Hdoc Hinfo. unfold process_name.
  rewrite (proj2 (String.eqb_neq _ _) Hcancel), Hs, Hdoc, Hinfo.
  cbn [fst snd]. split; [reflexivity|]. split.
  - destruct group_reachable; cbn [outbox send with_user_data];
      rewrite !elem_of_app, !list_elem_of_singleton; tauto.
  - destruct group_reachable; cbn [user_data send with_user_data];
      apply lookup_insert_eq.
Qed.

(** What [process_name] does when the images cannot be opened: the error
    is reported, nothing else is sent, and the session stays as it was. *)
Lemma process_name_decode_failure
    (uid : Z) (text : string) (w : world) (s : session) (main ref : media) :
  text ≠ CANCEL_TEXT →
  user_data w !! uid = Some s →
  first_photo s = Some main → second_photo s = Some ref →
  open_image main = None ∨ open_image ref = None →
  process_name uid text w =
    (Return END,
     World (user_data w) (files w)
       (outbox w ++ [SendText ProcessingText; SendText ErrorText;
                     SendText TryAgainText])).
Proof.
  intros Hcancel Hs Hmain Href Hopen. unfold process_name.
  rewrite (proj2 (String.eqb_neq _ _) Hcancel), Hs.
  assert (compose s text = None) as ->.
  { unfold compose. rewrite Hmain, Href. cbn [mbind option_bind].
    destruct Hopen as [->| ->]; [reflexivity|].
    destruct (open_image main) as [[? ?]|]; reflexivity. }
  unfold report_error, send. cbn [user_data files outbox].
  rewrite <- !(assoc_L (++)). reflexivity.
Qed.

End Jobs.

(** ** Entering an offset *)

Lemma read_offset_insert (sp : gmap string json) (k key : string) (v : Z) :
  read_offset (JDict (<[k := JInt v]> sp)) key =
    if decide (k = key) then Some v else read_offset (JDict sp) key.
Proof.
  unfold read_offset, py_getitem. rewrite lookup_insert.
  destruct (decide (k = key)); reflexivity.
Qed.

Lemma offsets_readable_insert (keys : list string) (sp : gmap string json)
    (k : string) (v : Z) :
  offsets_readable keys (JDict sp) = true →
  offsets_readable keys (JDict (<[k := JInt v]> sp)) = true.
Proof.
  unfold offsets_readable. rewrite !forallb_forall. intros Hall key Hkey.
  rewrite read_offset_insert. destruct (decide (k = key)); [reflexivity|].
  apply Hall, Hkey.
Qed.

Lemma with_user_data_same (w : world) (uid : Z) (s : session) :
  user_data w !! uid = Some s →
  with_user_data (<[uid := s]> (user_data w)) w = w.
Proof.
  intros Hs. unfold with_user_data. rewrite insert_id by exact Hs.
  destruct w; reflexivity.
Qed.

Section SpacingInput.
Context `{Platform}.

Lemma show_menu_readable (body : reply) (next : conv_state) (uid : Z)
    (w : world) (s : session) (sp : json) :
  user_data w !! uid = Some s → spacing s = Some sp →
  offsets_readable SPACING_KEYS sp = true →
  show_menu body next uid w = (Return next, send (SendText body) w).
Proof.
  intros Hs Hsp Hread. unfold show_menu, ensure_spacing.
  rewrite Hs. change (default empty_session (Some s)) with s. rewrite Hsp.
  rewrite (with_user_data_same _ _ _ Hs), insert_id by exact Hs.
  rewrite Hs. cbn [mbind option_bind]. rewrite Hsp, Hread. reflexivity.
Qed.

Lemma parsed_text_is_not_back (text : string) (v : Z) :
  int_of_str (str_strip text) = Some v → text ≠ BACK_TEXT.
Proof. intros Hv ->. rewrite back_is_no_int in Hv. discriminate. Qed.

(** A text that is an integer is stored under the pending key, or under
    ["image_x"] when the session has none, and the position menu is shown
    again. *)
Lemma handle_spacing_input_int
    (uid : Z) (text : string) (w : world) (s : session)
    (sp : gmap string json) (v : Z) :
  int_of_str (str_strip text) = Some v →
  user_data w !! uid = Some s →
  spacing s = Some (JDict sp) →
  offsets_readable SPACING_KEYS (JDict sp) = true →
  handle_spacing_input uid text w =
    (Return CUSTOM_SPACING,
     send (SendText PositionMenuText)
       (with_user_data
          (<[uid := set_spacing
                      (JDict (<[default "image_x" (current_spacing_key s)
                                := JInt v]> sp)) s]> (user_data w)) w)).
Proof.
  intros Hv Hs Hsp Hread. unfold handle_spacing_input.
  rewrite (proj2 (String.eqb_neq _ _) (parsed_text_is_not_back _ _ Hv)).
  rewrite Hs, Hv, Hsp, (with_user_data_same _ _ _ Hs).
  cbn [mbind option_bind py_setitem].
  unfold custom_spacing_menu.
  erewrite show_menu_readable; [reflexivity|..].
  - cbn [user_data with_user_data]. apply lookup_insert_eq.
  - reflexivity.
  - apply offsets_readable_insert, Hread.
Qed.

(** C8, as amended: in [SPACING_INPUT], with a pending key [k] and a
    session whose spacing holds the four offsets, a text other than the
    Back label that is an integer [v] sets [spacing[k]] to [v] and returns
    to [CUSTOM_SPACING]; a text other than the Back label that is no
    integer is answered with a new prompt, the state stays [SPACING_INPUT]
    and nothing of the sessions changes. *)
Theorem spacing_input_parses_or_reprompts
    (uid : Z) (text : string) (w : world) (s : session)
    (k : string) (sp : gmap string json) :
  user_data w !! uid = Some s →
  current_spacing_key s = Some k →
  spacing s = Some (JDict sp) →
  offsets_readable SPACING_KEYS (JDict sp) = true →
  text ≠ BACK_TEXT →
  match int_of_str (str_strip text) with
  | Some v =>
      handle_spacing_input uid text w =
        (Return CUSTOM_SPACING,
         send (SendText PositionMenuText)
           (with_user_data
              (<[uid := set_spacing (JDict (<[k := JInt v]> sp)) s]>
                 (user_data w)) w))
  | None =>
      handle_spacing_input uid text w =
        (Return SPACING_INPUT, send (SendText (InvalidNumberText k)) w)
  end.
Proof.
  intros Hs Hk Hsp Hread Hback.
  destruct (int_of_str (str_strip text)) as [v|] eqn:Hv.
  - rewrite (handle_spacing_input_int _ _ _ _ _ _ Hv Hs Hsp Hread), Hk.
    reflexivity.
  - unfold handle_spacing_input.
    rewrite (proj2 (String.eqb_neq _ _) Hback), Hs, Hv, Hk.
    rewrite (with_user_data_same _ _ _ Hs). reflexivity.
Qed.

(** C10: in [SPACING_INPUT] with no pending key in the session, a text
    that is an integer [v] is not refused: it is stored as the
    ["image_x"] offset, in the session's spacing or, for a user without a
    session, in a fresh default spacing, and the position menu follows. *)
Theorem missing_key_defaults_to_image_x
    (uid : Z) (text : string) (w : world) (v : Z) :
  int_of_str (str_strip text) = Some v →
  (∀ s sp,
     user_data w !! uid = Some s →
     current_spacing_key s = None →
     spacing s = Some (JDict sp) →
     offsets_readable SPACING_KEYS (JDict sp) = true →
     handle_spacing_input uid text w =
       (Return CUSTOM_SPACING,
        send (SendText PositionMenuText)
          (with_user_data
             (<[uid := set_spacing (JDict (<["image_x" := JInt v]> sp)) s]>
                (user_data w)) w))) ∧
  (user_data w !! uid = None →
   handle_spacing_input uid text w =
     (Return CUSTOM_SPACING,
      send (SendText PositionMenuText)
        (with_user_data
           (<[uid := set_spacing (JDict (<["image_x" := JInt v]> DEFAULT_SPACING))
                       empty_session]> (user_data w)) w))).
Proof.
  intros Hv. split.
  - intros s sp Hs Hk Hsp Hread.
    rewrite (handle_spacing_input_int _ _ _ _ _ _ Hv Hs Hsp Hread), Hk.
    reflexivity.
  - intros Hnone. unfold handle_spacing_input.
    rewrite (proj2 (String.eqb_neq _ _) (parsed_text_is_not_back _ _ Hv)).
    rewrite Hnone, Hv.
    cbn [spacing set_spacing current_spacing_key empty_session default
         mbind option_bind py_setitem].
    unfold custom_spacing_menu.
    erewrite show_menu_readable.
    + cbn [user_data with_user_data files outbox].
      rewrite insert_insert_eq. reflexivity.
    + apply lookup_insert_eq.
    + reflexivity.
    + apply offsets_readable_insert. reflexivity.
Qed.

End SpacingInput.

(** * The properties on the sample inputs *)

#[local] Existing Instance sample_platform.

Lemma sample_composition_built :
  compose sample_session "Hi" = Some sample_composition.
Proof. vm_compute. reflexivity. Qed.

(** Scenario A with the offsets of "Demo": a main image of 500 x 500 puts
    the reference at [(50 + 20, 50 - 10)]. *)
Lemma ref_anchor_is_clamped_centre_witness :
  compose sample_session "Hi" = Some sample_composition ∧
  ref_anchor sample_composition =
    (spec_clamp ((500 - 400) / 2 + 20) 0 (500 - 400),
     spec_clamp ((500 - 400) / 2 + -10) 0 (500 - 400)).
Proof.
  split; [vm_compute; reflexivity|].
  destruct (ref_anchor_is_clamped_centre
              sample_session "Hi" sample_composition)
    as (main & main_w & main_h & sp & image_x & image_y
        & Hmain & Hopen & Hsp & Hx & Hy & _ & Hanchor & _);
    [vm_compute; reflexivity|].
  injection Hmain as <-. injection Hsp as <-.
  injection Hopen as <- <-. injection Hx as <-. injection Hy as <-.
  exact Hanchor.
Defined.

(** C2 as stated fails on a main image of 100 x 100 with a label 288
    wide: the reference is put at 0 and the text at 10 on X, while the
    intervals [[0, 100 - 400]] and [[10, 100 - 288 - 10]] are empty. *)
Lemma anchors_outside_empty_interval :
  ∃ doc, compose small_session "A long label" = Some doc ∧
    canvas_size doc = (100, 100) ∧ text_extent doc = (288, 36) ∧
    ref_anchor doc = (0, 0) ∧ text_anchor doc = (10, 39) ∧
    ¬ within 0 (100 - 400) (ref_anchor doc).1 ∧
    ¬ within 10 (100 - 288 - 10) (text_anchor doc).1.
Proof.
  eexists. split; [vm_compute; reflexivity|].
  cbn [canvas_size text_extent ref_anchor text_anchor fst].
  repeat split; unfold within; lia.
Qed.

Lemma anchors_bounded_witness :
  compose sample_session "Hi" = Some sample_composition ∧
  within 0 (500 - 400) 70 ∧ within 0 (500 - 400) 40 ∧
  within 10 (500 - 48 - 10) 226 ∧ within 10 (500 - 36 - 10) 439.
Proof.
  split; [vm_compute; reflexivity|].
  pose proof (anchors_bounded
                sample_session "Hi" sample_composition) as Hb.
  cbn [canvas_size text_extent ref_anchor text_anchor sample_composition] in Hb.
  destruct Hb as (_ & Hrx & Hry & Htx & Hty & _); [vm_compute; reflexivity|].
  repeat split; first [apply Hrx|apply Hry|apply Htx|apply Hty]; lia.
Defined.

(** Scenario C: a main image sent as an [image/png] document and a
    reference sent as a photo. *)
Lemma transparency_iff_png_document_witness :
  let msg1 := DocumentMsg (Media "main") (Some "image/png") in
  let msg2 := PhotoMsg [Media "ref"] in
  let w1 := (first_image sample_user msg1 sample_world).2 in
  let w2 := (second_image 7 msg2 w1).2 in
  ∃ s, user_data w2 !! 7 = Some s ∧ has_transparency s = true ∧
       ∃ doc, compose s "Hi" = Some doc ∧
              canvas_mode doc = RGBA ∧ ref_mode doc = RGBA ∧ out_format doc = PNG.
Proof.
  intros msg1 msg2 w1 w2.
  destruct (transparency_iff_png_document
              sample_user msg1 msg2 sample_world w1 w2)
    as (s & Hs & Hiff & Hdoc);
    [vm_compute; reflexivity|vm_compute; reflexivity|].
  exists s. split; [exact Hs|].
  assert (has_transparency s = true) as Ht by (apply Hiff; left; reflexivity).
  split; [exact Ht|].
  assert (Some s = user_data w2 !! 7) as Hs' by (symmetry; exact Hs).
  vm_compute in Hs'. injection Hs' as ->.
  eexists. split; [vm_compute; reflexivity|]. repeat split.
Defined.

(** Scenario D: "Demo" saved with [{20, -10, 0, 5}] and loaded again. *)
Lemma save_then_load_roundtrip_witness :
  "Demo" ≠ BACK_TEXT ∧ ascii_strip "Demo" = "Demo" ∧ "Demo" ≠ EmptyString ∧
  (load_presets
     (files (save_preset 7 "Demo" sample_world).2)).1
    !! "Demo"
  = Some (preset_entry (JDict (spacing_record 20 (-10) 0 5))).
Proof.
  assert ("Demo" ≠ BACK_TEXT) as Hback by discriminate.
  assert ("Demo" ≠ EmptyString) as Hne by discriminate.
  split; [exact Hback|]. split; [reflexivity|]. split; [exact Hne|].
  destruct (save_then_load_roundtrip (H := sample_platform)
              7 "Demo" "Demo" sample_world sample_session 20 (-10) 0 5
              Hback eq_refl Hne)
    as [_ Hall]; [reflexivity|reflexivity|reflexivity|].
  destruct (Hall _ eq_refl) as (stored & Hload & _ & _ & _ & _ & -> & _).
  exact Hload.
Defined.

Lemma preset_entry_record (sp : gmap string json) :
  preset_record (preset_entry (JDict sp)).
Proof.
  eexists. split; [reflexivity|]. intros sp0 Hsp0.
  rewrite lookup_insert_eq in Hsp0. injection Hsp0 as <-. eauto.
Qed.

Lemma legacy_document_records : map_Forall (λ _, preset_record) legacy_document.
Proof.
  unfold legacy_document.
  repeat (apply map_Forall_insert_2; [apply preset_entry_record|]).
  apply map_Forall_empty.
Qed.

Lemma old_spacing_old_format : old_format old_spacing.
Proof. split; [eexists|]; reflexivity. Qed.

(** The record "Old" comes back with the default spacing, the document is
    written once, and the second load returns what the first returned. *)
Lemma legacy_record_migrated_once_witness :
  let r1 := load_presets legacy_disk in
  r1.1 !! "Old" = Some (preset_entry (JDict DEFAULT_SPACING)) ∧
  write_log r1.2 = [JDict r1.1] ∧
  load_presets r1.2 = r1.
Proof.
  pose proof (legacy_record_migrated_once legacy_disk legacy_document "Old"
                (<["spacing" := JDict old_spacing]> ∅) old_spacing
                eq_refl legacy_document_records eq_refl eq_refl
                old_spacing_old_format eq_refl) as Hm.
  cbv zeta. destruct (load_presets legacy_disk) as [presets1 fs1].
  destruct Hm as (Hold & Hlog & _ & Hagain). cbn [fst snd].
  split; [|split; [exact Hlog|exact Hagain]].
  rewrite Hold. unfold preset_entry. rewrite insert_insert_eq. reflexivity.
Defined.

(** C6 as stated fails on a document that stores only ["image_x"] for
    the preset "A": [load_presets] returns the record as stored, without
    ["image_y"], ["text_x"] and ["text_y"]. *)
Lemma load_presets_returns_partial_record :
  (load_presets partial_disk).1 !! "A"
  = Some (preset_entry (JDict partial_spacing)) ∧
  partial_spacing !! "image_x" = Some (JInt 5) ∧
  partial_spacing !! "image_y" = None ∧
  partial_spacing !! "text_x" = None ∧
  partial_spacing !! "text_y" = None.
Proof. repeat split; vm_compute; reflexivity. Qed.

Lemma partial_spacing_current : ¬ old_format partial_spacing.
Proof. intros [[v Htop] _]. vm_compute in Htop. discriminate. Qed.

Lemma missing_keys_filled_by_consumers_witness :
  (load_presets partial_disk).1 !! "A"
  = Some (preset_entry (JDict partial_spacing)) ∧
  ∃ w', load_preset 7 (Some "A") EmptyString (world_of sample_session partial_disk)
        = (Return SETTINGS, w') ∧
        user_data w' !! 7 ≫= spacing
        = Some (JDict (partial_spacing ∪ DEFAULT_SPACING)).
Proof.
  destruct (missing_keys_filled_by_consumers (H := sample_platform)
              (world_of sample_session partial_disk) partial_document "A"
              (<["spacing" := JDict partial_spacing]> ∅) partial_spacing 7 EmptyString)
    as (Hload & _ & _ & Hconsumer & _ & _ & _).
  - reflexivity.
  - unfold partial_document.
    apply map_Forall_insert_2; [apply preset_entry_record|apply map_Forall_empty].
  - reflexivity.
  - reflexivity.
  - exact partial_spacing_current.
  - split; [exact Hload|exact Hconsumer].
Defined.

(** C7 as stated fails on a session that names "Demo" as its last preset:
    after [cancel], and after a composition that went through, the name
    is gone. *)
Lemma job_end_forgets_last_preset :
  user_data sample_world !! 7 ≫= last_preset = Some "Demo" ∧
  user_data (cancel 7 sample_world).2 !! 7 ≫= last_preset = None ∧
  (process_name 7 "Hi" sample_world).1 = Return END ∧
  SendText MergedText ∈ outbox (process_name 7 "Hi" sample_world).2 ∧
  user_data (process_name 7 "Hi" sample_world).2 !! 7 ≫= last_preset = None.
Proof.
  split; [reflexivity|]. split; [reflexivity|]. split; [reflexivity|].
  split; [|vm_compute; reflexivity].
  assert (outbox (process_name 7 "Hi" sample_world).2 =
            [SendText ProcessingText; SendDocument sample_composition;
             SendGroupDocument sample_composition "Ann" "ann" "Hi";
             SendText MergedText]) as -> by (vm_compute; reflexivity).
  rewrite !elem_of_cons. tauto.
Qed.

Lemma job_end_keeps_only_spacing_witness :
  user_data (cancel 7 sample_world).2 !! 7
  = Some (settings_data sample_session) ∧
  user_data (process_name 7 "Hi" sample_world).2 !! 7
  = Some (settings_data sample_session) ∧
  spacing (settings_data sample_session)
  = Some (JDict (spacing_record 20 (-10) 0 5)).
Proof.
  destruct (job_end_keeps_only_spacing (H := sample_platform)
              7 sample_world sample_session eq_refl)
    as (_ & Hcancel & Hjob & _).
  split; [exact Hcancel|]. split; [|reflexivity].
  assert ("Hi" ≠ CANCEL_TEXT) as Hne by discriminate.
  destruct (Hjob "Hi" sample_composition (7, "Ann", "ann") Hne
              sample_composition_built eq_refl) as (_ & _ & Hreset).
  exact Hreset.
Defined.

(** C8 as stated fails on the Back label: it is no integer, and the
    handler leaves [SPACING_INPUT] for the position menu without asking
    again. *)
Lemma back_label_leaves_spacing_input :
  int_of_str (str_strip BACK_TEXT) = None ∧
  current_spacing_key sample_session = Some "text_x" ∧
  handle_spacing_input 7 BACK_TEXT sample_world
  = (Return CUSTOM_SPACING, send (SendText PositionMenuText) sample_world) ∧
  Return CUSTOM_SPACING ≠ Return SPACING_INPUT.
Proof.
  split; [reflexivity|]. split; [reflexivity|].
  split; [vm_compute; reflexivity|discriminate].
Qed.

Lemma spacing_input_parses_or_reprompts_witness :
  (handle_spacing_input 7 " -50 " sample_world).1 = Return CUSTOM_SPACING ∧
  user_data (handle_spacing_input 7 " -50 " sample_world).2 !! 7
  = Some (set_spacing (JDict (spacing_record 20 (-10) (-50) 5)) sample_session) ∧
  handle_spacing_input 7 "fifty" sample_world
  = (Return SPACING_INPUT, send (SendText (InvalidNumberText "text_x")) sample_world).
Proof.
  assert (" -50 " ≠ BACK_TEXT) as Hne1 by discriminate.
  assert ("fifty" ≠ BACK_TEXT) as Hne2 by discriminate.
  pose proof (spacing_input_parses_or_reprompts (H := sample_platform)
                7 " -50 " sample_world sample_session "text_x"
                (spacing_record 20 (-10) 0 5)
                eq_refl eq_refl eq_refl eq_refl Hne1) as Hint.
  pose proof (spacing_input_parses_or_reprompts (H := sample_platform)
                7 "fifty" sample_world sample_session "text_x"
                (spacing_record 20 (-10) 0 5)
                eq_refl eq_refl eq_refl eq_refl Hne2) as Hbad.
  change (int_of_str (str_strip " -50 ")) with (Some (-50)) in Hint.
  change (int_of_str (str_strip "fifty")) with (@None Z) in Hbad.
  rewrite Hint. cbn [fst snd user_data send with_user_data].
  split; [reflexivity|]. split; [|exact Hbad].
  rewrite lookup_insert_eq. reflexivity.
Defined.

(** C9 on a main image that cannot be opened: [process_name] reports the
    error, sends no document and ends the conversation, and the session
    still holds the media, the flags and the user info of the job. *)
Lemma decode_failure_keeps_job_fields :
  open_image (Media "broken") = None ∧
  process_name 7 "Hi" (world_of broken_session empty_disk)
  = (Return END,
     World {[7 := broken_session]} empty_disk
       [SendText ProcessingText; SendText ErrorText; SendText TryAgainText]) ∧
  first_photo broken_session = Some (Media "broken") ∧
  second_photo broken_session = Some (Media "ref") ∧
  broken_session ≠ settings_data broken_session.
Proof.
  split; [reflexivity|]. split.
  - apply (process_name_decode_failure (H := sample_platform)
             7 "Hi" (world_of broken_session empty_disk) broken_session
             (Media "broken") (Media "ref")); try reflexivity.
    + discriminate.
    + left. reflexivity.
  - repeat split. discriminate.
Qed.

(** A user at [SPACING_INPUT] whose session has lost the pending key
    sends "15": the value lands in ["image_x"]. *)
Lemma missing_key_defaults_to_image_x_witness :
  current_spacing_key keyless_session = None ∧
  (handle_spacing_input 7 "15" (world_of keyless_session empty_disk)).1
  = Return CUSTOM_SPACING ∧
  user_data (handle_spacing_input 7 "15" (world_of keyless_session empty_disk)).2
    !! 7 ≫= spacing
  = Some (JDict (spacing_record 15 (-10) 0 5)).
Proof.
  split; [reflexivity|].
  destruct (missing_key_defaults_to_image_x (H := sample_platform)
              7 "15" (world_of keyless_session empty_disk) 15 eq_refl)
    as [Hsession _].
  rewrite (Hsession keyless_session (spacing_record 20 (-10) 0 5)
             eq_refl eq_refl eq_refl eq_refl).
  split; [reflexivity|].
  cbn [snd user_data send with_user_data]. rewrite lookup_insert_eq.
  reflexivity.
Defined.

(** * Further properties of the preset repository *)

Lemma load_presets_unwritable (fs : disk) :
  writable fs = false → (load_presets fs).2 = fs.
Proof.
  intros Hw. unfold load_presets.
  destruct (presets_file fs) as [[|[| | | | |m]]|]; try reflexivity.
  destruct (migrate_items (map_to_list m)) as [[items [|]]|]; try reflexivity.
  unfold dump_presets. rewrite Hw. reflexivity.
Qed.

Lemma load_presets_twice (fs : disk) :
  load_presets (load_presets fs).2 = load_presets fs.
Proof.
  pose proof (load_presets_returns_settled fs) as Hset.
  destruct (writable fs) eqn:Hw.
  - unfold load_presets in *.
    destruct (presets_file fs) as [[|[| | | | |m]]|] eqn:Hfile; cbn [snd];
      rewrite ?Hfile; auto.
    destruct (migrate_items (map_to_list m)) as [[items [|]]|] eqn:Hitems;
      cbn [snd]; rewrite ?Hfile, ?Hitems; auto.
    unfold dump_presets in *. rewrite Hw in *. cbn [fst snd] in *.
    fold (load_presets (Disk (Some (Document (JDict (list_to_map items)))) true
                          (write_log fs ++ [JDict (list_to_map items)]))).
    apply load_presets_settled; [reflexivity|exact Hset].
  - rewrite (load_presets_unwritable fs Hw). reflexivity.
Qed.

(** X1: for every state of the file, readable or not, writable or not,
    [load_presets] writes at most one document, and loading again right
    after returns the same presets and leaves the file system as the
    first load left it. *)
Theorem load_presets_idempotent (fs : disk) :
  load_presets (load_presets fs).2 = load_presets fs ∧
  (write_log (load_presets fs).2 = write_log fs ∨
   write_log (load_presets fs).2 = write_log fs ++ [JDict (load_presets fs).1]).
Proof.
  split; [apply load_presets_twice|].
  unfold load_presets.
  destruct (presets_file fs) as [[|[| | | | |m]]|]; auto.
  destruct (migrate_items (map_to_list m)) as [[items [|]]|]; auto.
  unfold dump_presets. destruct (writable fs); auto.
Qed.

Lemma scalar_raises (v : json) : scalar v → migrate_record v = None.
Proof. destruct v; cbn; intros []; reflexivity. Qed.

Lemma scalar_spacing_raises (d : gmap string json) (x : json) :
  d !! "spacing" = Some x → scalar x → migrate_record (JDict d) = None.
Proof.
  intros Hsp Hx. rewrite migrate_record_dict, Hsp.
  destruct x; cbn in Hx; try contradiction; reflexivity.
Qed.

Lemma migrate_items_raises (l : list (string * json)) (k : string) (v : json) :
  (k, v) ∈ l → migrate_record v = None → migrate_items l = None.
Proof.
  intros Hin Hv. induction l as [|[k0 v0] l IH]; [inversion Hin|].
  cbn -[migrate_record].
  apply elem_of_cons in Hin as [[= <- <-]|Hin].
  - rewrite Hv. reflexivity.
  - rewrite (IH Hin). destruct (migrate_record v0) as [[? ?]|]; reflexivity.
Qed.

(** X2: one record that is null, a boolean or a number, or an object
    whose ["spacing"] is one, makes [load_presets] return no preset at
    all, whatever else the document holds; the file is left as it is. *)
Theorem load_presets_malformed_record
    (fs : disk) (m : gmap string json) (k : string) (v : json) :
  presets_file fs = Some (Document (JDict m)) →
  m !! k = Some v →
  scalar v ∨ (∃ d x, v = JDict d ∧ d !! "spacing" = Some x ∧ scalar x) →
  load_presets fs = (∅, fs).
Proof.
  intros Hfile Hk Hv. unfold load_presets. rewrite Hfile.
  rewrite (migrate_items_raises _ k v); [reflexivity| |].
  - apply elem_of_map_to_list. exact Hk.
  - destruct Hv as [Hv|(d & x & -> & Hsp & Hx)].
    + apply scalar_raises, Hv.
    + eapply scalar_spacing_raises; eassumption.
Qed.

Lemma migrated_dict (rec : gmap string json) :
  ∃ rec', migrated (JDict rec) = JDict rec' ∧
          ∀ field, field ≠ "spacing" → rec' !! field = rec !! field.
Proof.
  unfold migrated. rewrite migrate_record_dict.
  destruct (rec !! "spacing") as [sp|]; [|eauto].
  destruct (py_in "top" sp) as [[|]|]; cbn; [|eauto|eauto].
  destruct (py_in "image_x" sp) as [[|]|]; cbn; [eauto| |eauto].
  eexists. split; [reflexivity|]. intros field Hne.
  apply lookup_insert_ne. congruence.
Qed.

(** X3: on a document of preset records the migration neither adds nor
    drops a name, and of a record it changes nothing but ["spacing"]:
    every other field comes back as stored. *)
Theorem load_presets_keeps_names_and_fields (fs : disk) (m : gmap string json) :
  presets_file fs = Some (Document (JDict m)) →
  map_Forall (λ _, preset_record) m →
  dom (load_presets fs).1 = dom m ∧
  ∀ k rec, m !! k = Some (JDict rec) →
    ∃ rec', (load_presets fs).1 !! k = Some (JDict rec') ∧
            ∀ field, field ≠ "spacing" → rec' !! field = rec !! field.
Proof.
  intros Hfile Hdoc. rewrite (load_presets_document _ _ Hfile Hdoc). split.
  - apply dom_fmap_L.
  - intros k rec Hk. rewrite lookup_fmap, Hk.
    cbn [fmap option_fmap option_map].
    destruct (migrated_dict rec) as (rec' & -> & Hfields). eauto.
Qed.

Lemma load_presets_raising_record
    (fs : disk) (m : gmap string json) (k : string) (v : json) :
  presets_file fs = Some (Document (JDict m)) →
  m !! k = Some v → migrate_record v = None →
  load_presets fs = (∅, fs).
Proof.
  intros Hfile Hk Hv. unfold load_presets. rewrite Hfile.
  rewrite (migrate_items_raises _ k v); [reflexivity| |exact Hv].
  apply elem_of_map_to_list. exact Hk.
Qed.

Section SavingAndDeleting.
Context `{Platform}.

(** What [save_preset] does when it gets as far as writing. *)
Lemma save_preset_written
    (uid : Z) (text : string) (w : world) (s : session) (sp : json) :
  text ≠ BACK_TEXT → str_strip text ≠ EmptyString →
  user_data w !! uid = Some s → spacing s = Some sp →
  writable (files w) = true →
  save_preset uid text w =
    (Return SETTINGS,
     send (SendText (PresetSavedText (str_strip text)))
       (World
          (<[uid := set_last_preset (str_strip text) (set_editing_preset None s)]>
             (user_data w))
          (Disk (Some (Document
                   (JDict (<[str_strip text := preset_entry sp]>
                             (load_presets (files w)).1))))
             true
             (write_log (load_presets (files w)).2 ++
                [JDict (<[str_strip text := preset_entry sp]>
                          (load_presets (files w)).1)]))
          (outbox w))).
Proof.
  intros Hback Hne Hs Hsp Hw. unfold save_preset.
  rewrite (proj2 (String.eqb_neq _ _) Hback).
  rewrite (proj2 (String.eqb_neq _ _) Hne), Hs, Hsp.
  pose proof (load_presets_writable (files w)) as Hw1.
  destruct (load_presets (files w)) as [presets fs1]. cbn [fst snd] in *.
  unfold save_presets, dump_presets. rewrite Hw1, Hw. reflexivity.
Qed.

(** X4: when [save_preset] stores a preset, the document it writes is
    the presets as [load_presets] returned them with the one entry
    [{"spacing": spacing}] put under the stripped name: an existing
    preset of that name is replaced, every other one is written back as
    loaded.  The session gets the name as its last preset and is no
    longer editing a preset; its spacing and all other users' sessions
    stay as they were. *)
Theorem save_preset_upserts
    (uid : Z) (text : string) (w : world) (s : session) (sp : json) :
  text ≠ BACK_TEXT → str_strip text ≠ EmptyString →
  user_data w !! uid = Some s → spacing s = Some sp →
  writable (files w) = true →
  let r := save_preset uid text w in
  let name := str_strip text in
  r.1 = Return SETTINGS ∧
  (∃ doc, presets_file (files r.2) = Some (Document (JDict doc)) ∧
          doc !! name = Some (preset_entry sp) ∧
          ∀ k, k ≠ name → doc !! k = (load_presets (files w)).1 !! k) ∧
  user_data r.2 !! uid
  = Some (set_last_preset name (set_editing_preset None s)) ∧
  spacing (set_last_preset name (set_editing_preset None s)) = spacing s ∧
  ∀ uid', uid' ≠ uid → user_data r.2 !! uid' = user_data w !! uid'.
Proof.
  intros Hback Hne Hs Hsp Hw. cbv zeta.
  rewrite (save_preset_written _ _ _ _ _ Hback Hne Hs Hsp Hw).
  cbn [fst snd files user_data send presets_file].
  split; [reflexivity|]. split; [|split; [|split]].
  - eexists. split; [reflexivity|]. split; [apply lookup_insert_eq|].
    intros k Hk. apply lookup_insert_ne. congruence.
  - apply lookup_insert_eq.
  - reflexivity.
  - intros uid' Hne'. apply lookup_insert_ne. congruence.
Qed.

(** X5: when [load_presets] gives up on the stored document, because the
    file cannot be parsed or because one record of it is null, a boolean
    or a number, [save_preset] writes a document that holds the new
    preset and nothing else: the presets that were in the file are
    gone. *)
Theorem save_preset_replaces_broken_document
    (uid : Z) (text : string) (w : world) (s : session) (sp : json) :
  text ≠ BACK_TEXT → str_strip text ≠ EmptyString →
  user_data w !! uid = Some s → spacing s = Some sp →
  writable (files w) = true →
  presets_file (files w) = Some Unreadable ∨
  (∃ m k v, presets_file (files w) = Some (Document (JDict m)) ∧
            m !! k = Some v ∧ scalar v) →
  presets_file (files (save_preset uid text w).2)
  = Some (Document (JDict {[str_strip text := preset_entry sp]})).
Proof.
  intros Hback Hne Hs Hsp Hw Hbroken.
  rewrite (save_preset_written _ _ _ _ _ Hback Hne Hs Hsp Hw).
  cbn [snd files send presets_file].
  assert ((load_presets (files w)).1 = ∅) as ->; [|reflexivity].
  destruct Hbroken as [Hfile|(m & k & v & Hfile & Hk & Hv)].
  - unfold load_presets. rewrite Hfile. reflexivity.
  - rewrite (load_presets_raising_record _ _ _ _ Hfile Hk (scalar_raises _ Hv)).
    reflexivity.
Qed.

(** X6: [save_preset] stores nothing and changes no session when the
    stripped name is empty (it asks again and stays in [PRESET_NAME]),
    when the user has no session or the session no spacing, and when the
    file cannot be written: in each case the world is as before, with
    one reply more. *)
Theorem save_preset_refusals (uid : Z) (text : string) (w : world) :
  text ≠ BACK_TEXT →
  (str_strip text = EmptyString →
   save_preset uid text w = (Return PRESET_NAME, send (SendText EmptyNameText) w)) ∧
  (str_strip text ≠ EmptyString → user_data w !! uid ≫= spacing = None →
   save_preset uid text w = (Return SETTINGS, send (SendText NoSpacingText) w)) ∧
  (str_strip text ≠ EmptyString → is_Some (user_data w !! uid ≫= spacing) →
   writable (files w) = false →
   save_preset uid text w
   = (Return SETTINGS, send (SendText PresetSaveFailedText) w)).
Proof.
  intros Hback. unfold save_preset.
  rewrite (proj2 (String.eqb_neq _ _) Hback). repeat split.
  - intros ->. reflexivity.
  - intros Hne Hnone. rewrite (proj2 (String.eqb_neq _ _) Hne).
    destruct (user_data w !! uid) as [s|]; [|reflexivity].
    cbn in Hnone. rewrite Hnone. reflexivity.
  - intros Hne [sp Hsp] Hw. rewrite (proj2 (String.eqb_neq _ _) Hne).
    destruct (user_data w !! uid) as [s|]; [|discriminate].
    cbn in Hsp. rewrite Hsp.
    pose proof (load_presets_unwritable _ Hw) as Hfs.
    destruct (load_presets (files w)) as [presets fs1]. cbn [snd] in Hfs.
    subst fs1. unfold save_presets, dump_presets. rewrite Hw.
    destruct w; reflexivity.
Qed.

(** What [delete_preset] does when it gets as far as writing. *)
Lemma delete_preset_written
    (uid : Z) (text : string) (w : world) (rec : json) :
  text ≠ BACK_TEXT → String.prefix "Delete:" text = true →
  (load_presets (files w)).1 !! button_name "Delete:" text = Some rec →
  writable (files w) = true →
  delete_preset uid text w =
    (Return DELETE_PRESET,
     with_files
       (Disk (Some (Document
                (JDict (delete (button_name "Delete:" text)
                          (load_presets (files w)).1))))
          true
          (write_log (load_presets (files w)).2 ++
             [JDict (delete (button_name "Delete:" text)
                       (load_presets (files w)).1)])) w,
     Some (PresetDeletedText (button_name "Delete:" text))).
Proof.
  intros Hback Hprefix Hrec Hw. unfold delete_preset.
  rewrite (proj2 (String.eqb_neq _ _) Hback), Hprefix.
  pose proof (load_presets_writable (files w)) as Hw1.
  destruct (load_presets (files w)) as [presets fs1]. cbn [fst snd] in *.
  rewrite Hrec. unfold save_presets, dump_presets. rewrite Hw1, Hw. reflexivity.
Qed.

(** X7: [delete_preset] on the button of a stored preset writes the
    loaded presets without that one: the next [load_presets] returns
    exactly the presets loaded before minus the deleted name, and writes
    nothing.  No session is touched. *)
Theorem delete_preset_removes
    (uid : Z) (text : string) (w : world) (rec : json) :
  text ≠ BACK_TEXT → String.prefix "Delete:" text = true →
  (load_presets (files w)).1 !! button_name "Delete:" text = Some rec →
  writable (files w) = true →
  let '(result, w', answer) := delete_preset uid text w in
  let name := button_name "Delete:" text in
  result = Return DELETE_PRESET ∧
  answer = Some (PresetDeletedText name) ∧
  load_presets (files w') = (delete name (load_presets (files w)).1, files w') ∧
  (load_presets (files w')).1 !! name = None ∧
  (∀ k, k ≠ name →
     (load_presets (files w')).1 !! k = (load_presets (files w)).1 !! k) ∧
  user_data w' = user_data w.
Proof.
  intros Hback Hprefix Hrec Hw.
  rewrite (delete_preset_written _ _ _ _ Hback Hprefix Hrec Hw).
  cbn [files with_files user_data].
  assert (load_presets
            (Disk (Some (Document
                     (JDict (delete (button_name "Delete:" text)
                               (load_presets (files w)).1))))
               true
               (write_log (load_presets (files w)).2 ++
                  [JDict (delete (button_name "Delete:" text)
                            (load_presets (files w)).1)]))
          = (delete (button_name "Delete:" text) (load_presets (files w)).1,
             Disk (Some (Document
                     (JDict (delete (button_name "Delete:" text)
                               (load_presets (files w)).1))))
               true
               (write_log (load_presets (files w)).2 ++
                  [JDict (delete (button_name "Delete:" text)
                            (load_presets (files w)).1)]))) as Hload.
  { apply load_presets_settled; [reflexivity|].
    apply map_Forall_delete, load_presets_returns_settled. }
  rewrite Hload. cbn [fst].
  repeat split.
  - apply lookup_delete_eq.
  - intros k Hk. apply lookup_delete_ne. congruence.
Qed.

(** X8: [delete_preset] deletes nothing when the text is no [Delete:]
    button, when the name on the button is not among the loaded presets,
    and when the file cannot be written: the presets a later
    [load_presets] returns are those it returned before. *)
Theorem delete_preset_refusals (uid : Z) (text : string) (w : world) :
  text ≠ BACK_TEXT →
  (String.prefix "Delete:" text = false →
   delete_preset uid text w = (Return DELETE_PRESET, w, Some SelectDeleteText)) ∧
  (String.prefix "Delete:" text = true →
   (load_presets (files w)).1 !! button_name "Delete:" text = None →
   delete_preset uid text w
   = (Return DELETE_PRESET, with_files (load_presets (files w)).2 w,
      Some DeleteNotFoundText) ∧
   (load_presets (load_presets (files w)).2).1 = (load_presets (files w)).1) ∧
  (String.prefix "Delete:" text = true →
   is_Some ((load_presets (files w)).1 !! button_name "Delete:" text) →
   writable (files w) = false →
   delete_preset uid text w = (Return DELETE_PRESET, w, Some PresetDeleteFailedText)).
Proof.
  intros Hback. unfold delete_preset.
  rewrite (proj2 (String.eqb_neq _ _) Hback). split; [|split].
  - intros ->. reflexivity.
  - intros Hprefix Hnone. rewrite Hprefix. split.
    + destruct (load_presets (files w)) as [presets fs1].
      cbn [fst snd] in *. rewrite Hnone. reflexivity.
    + rewrite load_presets_twice. reflexivity.
  - intros Hprefix [rec Hrec] Hw. rewrite Hprefix.
    pose proof (load_presets_unwritable _ Hw) as Hfs.
    destruct (load_presets (files w)) as [presets fs1]. cbn [fst snd] in *.
    subst fs1. rewrite Hrec. unfold save_presets, dump_presets. rewrite Hw.
    destruct w; reflexivity.
Qed.

End SavingAndDeleting.

Lemma spacing_record_settled (ix iy tx ty : Z) :
  settled (preset_entry (JDict (spacing_record ix iy tx ty))).
Proof.
  eapply current_format_settled; [apply lookup_insert_eq|].
  intros [_ Hix]. discriminate Hix.
Qed.

Lemma spacing_record_filled (ix iy tx ty : Z) :
  spacing_record ix iy tx ty ∪ DEFAULT_SPACING = spacing_record ix iy tx ty.
Proof.
  apply map_eq. intros k. rewrite lookup_union.
  destruct (spacing_record ix iy tx ty !! k) as [v|] eqn:Hk;
    [destruct (DEFAULT_SPACING !! k); reflexivity|].
  unfold spacing_record, DEFAULT_SPACING in *.
  repeat (rewrite lookup_insert in Hk; rewrite lookup_insert;
          destruct (decide (_ = k)); [discriminate|]).
  reflexivity.
Qed.

Section PresetsAcrossHandlers.
Context `{Platform}.

(** [load_preset] on a stored preset whose spacing is a dict. *)
Lemma load_preset_stored
    (uid : Z) (name text : string) (w : world) (rec sp : gmap string json) :
  (load_presets (files w)).1 !! name = Some (JDict rec) →
  rec !! "spacing" = Some (JDict sp) →
  load_preset uid (Some name) text w =
    (Return SETTINGS,
     send (SendText (PresetLoadedText name))
       (World
          (<[uid := set_last_preset name
                      (set_spacing (JDict (sp ∪ DEFAULT_SPACING))
                         (default empty_session (user_data w !! uid)))]>
             (user_data w))
          (load_presets (files w)).2 (outbox w))).
Proof.
  intros Hrec Hsp. unfold load_preset.
  destruct (load_presets (files w)) as [presets fs1]. cbn [fst snd] in *.
  rewrite Hrec, py_in_dict, Hsp.
  rewrite bool_decide_eq_true_2 by eauto.
  rewrite (filled_copy_dict _ _ Hsp).
  cbn [user_data with_files with_user_data files outbox].
  rewrite insert_insert_eq. reflexivity.
Qed.

(** X9: saving the four offsets under a name that is not stored and then
    deleting the preset by its button brings the repository back: the
    presets loaded afterwards are those loaded before the save. *)
Theorem save_then_delete_restores
    (uid : Z) (text1 text2 : string) (w : world) (s : session)
    (ix iy tx ty : Z) :
  text1 ≠ BACK_TEXT → str_strip text1 ≠ EmptyString →
  user_data w !! uid = Some s →
  spacing s = Some (JDict (spacing_record ix iy tx ty)) →
  writable (files w) = true →
  (load_presets (files w)).1 !! str_strip text1 = None →
  text2 ≠ BACK_TEXT → String.prefix "Delete:" text2 = true →
  button_name "Delete:" text2 = str_strip text1 →
  let w1 := (save_preset uid text1 w).2 in
  (delete_preset uid text2 w1).2 = Some (PresetDeletedText (str_strip text1)) ∧
  (load_presets (files (delete_preset uid text2 w1).1.2)).1
  = (load_presets (files w)).1.
Proof.
  intros Hback1 Hne Hs Hsp Hw Hfresh Hback2 Hprefix Hname. cbv zeta.
  rewrite (save_preset_written _ _ _ _ _ Hback1 Hne Hs Hsp Hw).
  cbn [snd].
  pose proof (load_presets_returns_settled (files w)) as Hset.
  set (p := (load_presets (files w)).1) in *.
  set (e := preset_entry (JDict (spacing_record ix iy tx ty))).
  set (n := str_strip text1) in *.
  set (log := write_log (load_presets (files w)).2 ++ [JDict (<[n := e]> p)]).
  set (w1 := send _ _).
  assert (files w1 = Disk (Some (Document (JDict (<[n := e]> p)))) true log)
    as Hfiles by reflexivity.
  assert (load_presets (files w1) = (<[n := e]> p, files w1)) as Hload1.
  { apply load_presets_settled; [rewrite Hfiles; reflexivity|].
    apply map_Forall_insert_2; [apply spacing_record_settled|exact Hset]. }
  rewrite (delete_preset_written uid text2 w1 e Hback2 Hprefix).
  - cbn [fst snd files with_files]. split; [rewrite Hname; reflexivity|].
    rewrite Hload1, Hname. cbn [fst snd].
    rewrite (delete_insert_id _ _ _ Hfresh).
    rewrite (load_presets_settled _ p); [reflexivity|reflexivity|exact Hset].
  - rewrite Hload1, Hname. cbn [fst]. apply lookup_insert_eq.
  - rewrite Hfiles. reflexivity.
Qed.

(** X10: what one user saves another loads.  After [save_preset] stored
    the four offsets of one session under a name, [load_preset] of that
    name puts exactly these offsets into the session of the user who
    asks, remembers the name as that session's last preset, and writes
    nothing. *)
Theorem saved_preset_loads_for_any_user
    (uid uid' : Z) (text text' : string) (w : world) (s : session)
    (ix iy tx ty : Z) :
  text ≠ BACK_TEXT → str_strip text ≠ EmptyString →
  user_data w !! uid = Some s →
  spacing s = Some (JDict (spacing_record ix iy tx ty)) →
  writable (files w) = true →
  let w1 := (save_preset uid text w).2 in
  let r := load_preset uid' (Some (str_strip text)) text' w1 in
  r.1 = Return SETTINGS ∧
  user_data r.2 !! uid' ≫= spacing = Some (JDict (spacing_record ix iy tx ty)) ∧
  user_data r.2 !! uid' ≫= last_preset = Some (str_strip text) ∧
  files r.2 = files w1.
Proof.
  intros Hback Hne Hs Hsp Hw. cbv zeta.
  rewrite (save_preset_written _ _ _ _ _ Hback Hne Hs Hsp Hw).
  cbn [snd].
  pose proof (load_presets_returns_settled (files w)) as Hset.
  set (p := (load_presets (files w)).1) in *.
  set (e := preset_entry (JDict (spacing_record ix iy tx ty))).
  set (n := str_strip text) in *.
  set (log := write_log (load_presets (files w)).2 ++ [JDict (<[n := e]> p)]).
  set (w1 := send _ _).
  assert (files w1 = Disk (Some (Document (JDict (<[n := e]> p)))) true log)
    as Hfiles by reflexivity.
  assert (load_presets (files w1) = (<[n := e]> p, files w1)) as Hload1.
  { apply load_presets_settled; [rewrite Hfiles; reflexivity|].
    apply map_Forall_insert_2; [apply spacing_record_settled|exact Hset]. }
  rewrite (load_preset_stored uid' n text' w1 (<["spacing" :=
             JDict (spacing_record ix iy tx ty)]> ∅) (spacing_record ix iy tx ty)).
  - rewrite spacing_record_filled, Hload1.
    cbn [fst snd user_data files send]. rewrite lookup_insert_eq.
    repeat split.
  - rewrite Hload1. cbn [fst]. apply lookup_insert_eq.
  - apply lookup_insert_eq.
Qed.

(** X11: a stored preset that has no ["spacing"] resets the offsets:
    [load_preset] puts the default spacing [{0, 0, 0, 0}] into the session,
    answers that the preset was loaded, and leaves the session's last
    preset as it was. *)
Theorem load_preset_without_spacing
    (uid : Z) (name text : string) (w : world) (rec : gmap string json) :
  (load_presets (files w)).1 !! name = Some (JDict rec) →
  rec !! "spacing" = None →
  let s := default empty_session (user_data w !! uid) in
  load_preset uid (Some name) text w =
    (Return SETTINGS,
     send (SendText (PresetLoadedText name))
       (World (<[uid := set_spacing (JDict DEFAULT_SPACING) s]> (user_data w))
          (load_presets (files w)).2 (outbox w))) ∧
  last_preset (set_spacing (JDict DEFAULT_SPACING) s) = last_preset s.
Proof.
  intros Hrec Hsp. cbv zeta. split; [|reflexivity]. unfold load_preset.
  destruct (load_presets (files w)) as [presets fs1]. cbn [fst snd] in *.
  rewrite Hrec, py_in_dict, Hsp.
  rewrite bool_decide_eq_false_2 by (intros [? ?]; discriminate).
  cbn [user_data with_files with_user_data files outbox].
  rewrite insert_insert_eq. reflexivity.
Qed.

End PresetsAcrossHandlers.

(** * Further properties of the conversation handlers *)

Lemma position_key_in_keys (text k : string) :
  position_key_of text = Some k → k ∈ SPACING_KEYS.
Proof.
  unfold position_key_of, SPACING_KEYS.
  repeat (destruct (String.prefix _ text);
          [intros [= <-]; rewrite !elem_of_cons; tauto|]).
  discriminate.
Qed.

Lemma readable_key (keys : list string) (sp : json) (k : string) :
  offsets_readable keys sp = true → k ∈ keys → is_Some (read_offset sp k).
Proof.
  unfold offsets_readable. rewrite forallb_forall. intros Hall Hk.
  apply list_elem_of_In in Hk. specialize (Hall _ Hk).
  destruct (read_offset sp k); [eauto|discriminate].
Qed.

Lemma ensure_spacing_present (uid : Z) (ud : gmap Z session) (s : session) :
  ud !! uid = Some s → is_Some (spacing s) → ensure_spacing uid ud = ud.
Proof.
  intros Hs [sp Hsp]. unfold ensure_spacing. rewrite Hs.
  change (default empty_session (Some s)) with s. rewrite Hsp.
  apply insert_id, Hs.
Qed.

Section Positions.
Context `{Platform}.

Lemma handle_direction_selection_key
    (uid : Z) (text k : string) (w : world) (s : session)
    (sp : gmap string json) :
  user_data w !! uid = Some s → spacing s = Some (JDict sp) →
  offsets_readable SPACING_KEYS (JDict sp) = true →
  text ≠ BACK_TEXT → position_key_of text = Some k →
  handle_direction_selection uid text w =
    (Return SPACING_INPUT,
     send (SendText AskOffsetText)
       (with_user_data (<[uid := set_current_spacing_key k s]> (user_data w)) w)).
Proof.
  intros Hs Hsp Hread Hback Hk. unfold handle_direction_selection.
  rewrite (proj2 (String.eqb_neq _ _) Hback), Hk.
  rewrite (ensure_spacing_present _ _ _ Hs) by eauto.
  rewrite Hs, Hsp. cbn [mbind option_bind].
  destruct (readable_key _ _ k Hread (position_key_in_keys _ _ Hk)) as [v ->].
  destruct w; reflexivity.
Qed.

(** X12: choosing a direction and then entering a number changes that
    offset and no other.  A text that starts with one of the four
    direction labels moves the conversation to [SPACING_INPUT] with the
    key of that label pending; an integer sent next is stored under
    exactly that key, the other offsets keep their values, and the
    conversation is back at [CUSTOM_SPACING]. *)
Theorem choose_direction_then_enter_value
    (uid : Z) (text1 text2 k : string) (w : world) (s : session)
    (sp : gmap string json) (v : Z) :
  user_data w !! uid = Some s → spacing s = Some (JDict sp) →
  offsets_readable SPACING_KEYS (JDict sp) = true →
  text1 ≠ BACK_TEXT → position_key_of text1 = Some k →
  int_of_str (str_strip text2) = Some v →
  let r1 := handle_direction_selection uid text1 w in
  let r2 := handle_spacing_input uid text2 r1.2 in
  k ∈ SPACING_KEYS ∧
  r1.1 = Return SPACING_INPUT ∧
  user_data r1.2 !! uid ≫= current_spacing_key = Some k ∧
  r2.1 = Return CUSTOM_SPACING ∧
  user_data r2.2 !! uid ≫= spacing = Some (JDict (<[k := JInt v]> sp)) ∧
  read_offset (JDict (<[k := JInt v]> sp)) k = Some v ∧
  ∀ k', k' ≠ k →
    read_offset (JDict (<[k := JInt v]> sp)) k' = read_offset (JDict sp) k'.
Proof.
  intros Hs Hsp Hread Hback Hk Hv. cbv zeta.
  rewrite (handle_direction_selection_key _ _ _ _ _ _ Hs Hsp Hread Hback Hk).
  cbn [fst snd].
  rewrite (handle_spacing_input_int uid text2 _
             (set_current_spacing_key k s) sp v Hv);
    [|cbn [user_data send with_user_data]; apply lookup_insert_eq
     |exact Hsp|exact Hread].
  cbn [fst snd user_data send with_user_data current_spacing_key
       set_current_spacing_key default].
  rewrite !lookup_insert_eq. cbn [mbind option_bind].
  split; [eapply position_key_in_keys; eassumption|].
  repeat split.
  - rewrite read_offset_insert. rewrite decide_True by reflexivity. reflexivity.
  - intros k' Hne. rewrite read_offset_insert.
    rewrite decide_False by congruence. reflexivity.
Qed.

(** X13: a job never changes the offsets and never touches the preset
    file.  Whatever the text and whatever the outcome (composition sent,
    error reported, job cancelled), the spacing of the user's session
    after [process_name] is the spacing before it, and the file system is
    the same. *)
Theorem process_name_keeps_settings (uid : Z) (text : string) (w : world) :
  user_data (process_name uid text w).2 !! uid ≫= spacing
  = user_data w !! uid ≫= spacing ∧
  files (process_name uid text w).2 = files w.
Proof.
  unfold process_name, cancel, report_error.
  destruct (String.eqb text CANCEL_TEXT).
  - destruct (user_data w !! uid) as [s|] eqn:Hs;
      cbn [fst snd user_data files send with_user_data];
      rewrite ?lookup_insert_eq, ?Hs; auto.
  - destruct (user_data w !! uid) as [s|] eqn:Hs;
      [|cbn [fst snd user_data files send]; rewrite Hs; auto].
    destruct (compose s text) as [doc|];
      [|cbn [fst snd user_data files send]; rewrite Hs; auto].
    destruct (user_info s) as [[[i fn] un]|];
      [|cbn [fst snd user_data files send]; rewrite Hs; auto].
    destruct group_reachable;
      cbn [fst snd user_data files send with_user_data];
      rewrite lookup_insert_eq; auto.
Qed.

(** X14: when the group cannot be reached the job still completes: the
    user gets the document, then the note that the share was skipped,
    then the closing message, and the session is reset as after a shared
    job.  Nothing is sent to the group. *)
Theorem group_failure_still_delivers
    (uid : Z) (text : string) (w : world) (s : session) (doc : composition)
    (info : Z * string * string) :
  group_reachable = false →
  text ≠ CANCEL_TEXT → user_data w !! uid = Some s →
  compose s text = Some doc → user_info s = Some info →
  process_name uid text w =
    (Return END,
     World (<[uid := settings_data s]> (user_data w)) (files w)
       (outbox w ++ [SendText ProcessingText; SendDocument doc;
                     SendText GroupSkippedText; SendText MergedText])).
Proof.
  intros Hgroup Hcancel Hs Hdoc Hinfo. unfold process_name.
  rewrite (proj2 (String.eqb_neq _ _) Hcancel), Hs, Hdoc, Hinfo, Hgroup.
  destruct info as [[i fn] un]. unfold send, with_user_data.
  cbn [user_data files outbox]. rewrite <- !(assoc_L (++)). reflexivity.
Qed.

Lemma compose_unreadable_offset (s : session) (text : string) (sp : json)
    (k : string) :
  spacing s = Some sp → k ∈ SPACING_KEYS → read_offset sp k = None →
  compose s text = None.
Proof.
  intros Hsp Hk Hnone. unfold compose.
  destruct (first_photo s) as [m1|]; [|reflexivity].
  destruct (second_photo s) as [m2|]; [|reflexivity]. cbn [mbind option_bind].
  destruct (open_image m1) as [[mw mh]|]; [|reflexivity].
  destruct (open_image m2); [|reflexivity]. cbn [mbind option_bind].
  rewrite Hsp. cbn [mbind option_bind].
  destruct (font_getbbox text) as [[[x0 y0] x1] y1].
  unfold SPACING_KEYS in Hk.
  repeat (apply elem_of_cons in Hk as [->|Hk];
          [rewrite Hnone;
           repeat (destruct (read_offset sp _); cbn [mbind option_bind]);
           reflexivity|]).
  inversion Hk.
Qed.

(** X15: [process_name] ends with the error report, sends no document
    and changes neither a session nor the file when the user has no
    session, when one of the two images is not in the session or cannot
    be opened, when the session has no spacing, or when one of the four
    offsets is missing from the spacing or is no number. *)
Theorem process_name_reports_error (uid : Z) (text : string) (w : world) :
  text ≠ CANCEL_TEXT →
  match user_data w !! uid with
  | None => True
  | Some s =>
      first_photo s = None ∨ second_photo s = None ∨
      (∃ m, first_photo s = Some m ∧ open_image m = None) ∨
      (∃ m, second_photo s = Some m ∧ open_image m = None) ∨
      spacing s = None ∨
      (∃ sp k, spacing s = Some sp ∧ k ∈ SPACING_KEYS ∧ read_offset sp k = None)
  end →
  process_name uid text w =
    (Return END,
     World (user_data w) (files w)
       (outbox w ++ [SendText ProcessingText; SendText ErrorText;
                     SendText TryAgainText])).
Proof.
  intros Hcancel Hfail. unfold process_name.
  rewrite (proj2 (String.eqb_neq _ _) Hcancel).
  assert (∀ w0 : world,
            report_error (send (SendText ProcessingText) w0)
            = (Return END,
               World (user_data w0) (files w0)
                 (outbox w0 ++ [SendText ProcessingText; SendText ErrorText;
                                SendText TryAgainText]))) as Herr.
  { intros w0. unfold report_error, send. cbn [user_data files outbox].
    rewrite <- !(assoc_L (++)). reflexivity. }
  destruct (user_data w !! uid) as [s|]; [|apply Herr].
  assert (compose s text = None) as ->; [|apply Herr].
  destruct Hfail as [Hf|[Hf|[(m & Hm & Ho)|[(m & Hm & Ho)|[Hf|Hf]]]]].
  - unfold compose. rewrite Hf. reflexivity.
  - unfold compose. rewrite Hf. destruct (first_photo s); reflexivity.
  - unfold compose. rewrite Hm.
    destruct (second_photo s); [|reflexivity]. cbn [mbind option_bind].
    rewrite Ho. reflexivity.
  - unfold compose. rewrite Hm.
    destruct (first_photo s) as [m1|]; [|reflexivity]. cbn [mbind option_bind].
    rewrite Ho. destruct (open_image m1) as [[? ?]|]; reflexivity.
  - unfold compose. rewrite Hf.
    destruct (first_photo s) as [m1|]; [|reflexivity].
    destruct (second_photo s) as [m2|]; [|reflexivity]. cbn [mbind option_bind].
    destruct (open_image m1) as [[? ?]|]; [|reflexivity].
    destruct (open_image m2); reflexivity.
  - destruct Hf as (sp & k & Hsp & Hk & Hnone).
    eapply compose_unreadable_offset; eassumption.
Qed.

End Positions.

(** Case analysis on everything a handler branches on, then the lookup
    of another user's key. *)
Ltac other_user :=
  repeat match goal with
         | |- context [match ?x with _ => _ end] => destruct x eqn:?
         end;
  cbn [fst snd user_data send with_user_data with_files];
  rewrite ?lookup_insert_ne by assumption;
  try reflexivity.

Section Sessions.
Context `{Platform}.

Lemma show_menu_other_user (body : reply) (next : conv_state)
    (uid uid' : Z) (w : world) :
  uid ≠ uid' →
  user_data (show_menu body next uid w).2 !! uid' = user_data w !! uid'.
Proof. intros Hne. unfold show_menu, ensure_spacing. other_user. Qed.

Lemma presets_menu_other_user (uid uid' : Z) (w : world) :
  user_data (presets_menu uid w).2 !! uid' = user_data w !! uid'.
Proof. unfold presets_menu. other_user. Qed.

Lemma cancel_other_user (uid uid' : Z) (w : world) :
  uid ≠ uid' → user_data (cancel uid w).2 !! uid' = user_data w !! uid'.
Proof. intros Hne. unfold cancel. other_user. Qed.

Lemma apply_last_preset_other_user
    (uid uid' : Z) (w w' : world) (o : option json) :
  uid ≠ uid' → apply_last_preset uid w = Some (w', o) →
  user_data w' !! uid' = user_data w !! uid'.
Proof.
  intros Hne. unfold apply_last_preset.
  destruct (user_data w !! uid) as [s|]; [|intros [= <- <-]; reflexivity].
  destruct (last_preset s); [|intros [= <- <-]; reflexivity].
  destruct (load_presets (files w)) as [presets fs].
  destruct (presets !! _) as [pd|]; [|intros [= <- <-]; reflexivity].
  destruct (py_in "spacing" pd) as [[|]|]; cbn [mbind option_bind];
    [|intros [= <- <-]; reflexivity|discriminate].
  destruct (filled_copy pd); cbn [mbind option_bind]; [|discriminate].
  intros [= <- <-]. cbn [user_data with_user_data with_files].
  apply lookup_insert_ne, Hne.
Qed.

(** X16: the sessions live in one dict shared by all users, and no
    handler reaches into another user's entry: after any of the handlers,
    run for the user [uid] on any message, the session of every other
    user is what it was. *)
Theorem handlers_leave_other_users
    (uid uid' : Z) (u : user) (text : string) (msg : message)
    (selected : option string) (w : world) :
  uid ≠ uid' → user_id u = uid →
  user_data (settings uid w).2 !! uid' = user_data w !! uid' ∧
  user_data (custom_spacing_menu uid w).2 !! uid' = user_data w !! uid' ∧
  user_data (handle_direction_selection uid text w).2 !! uid'
  = user_data w !! uid' ∧
  user_data (handle_spacing_input uid text w).2 !! uid' = user_data w !! uid' ∧
  user_data (presets_menu uid w).2 !! uid' = user_data w !! uid' ∧
  user_data (load_preset uid selected text w).2 !! uid' = user_data w !! uid' ∧
  user_data (edit_preset uid text w).2 !! uid' = user_data w !! uid' ∧
  user_data (save_preset uid text w).2 !! uid' = user_data w !! uid' ∧
  user_data (delete_preset uid text w).1.2 !! uid' = user_data w !! uid' ∧
  user_data (start_new_image uid w).2 !! uid' = user_data w !! uid' ∧
  user_data (first_image u msg w).2 !! uid' = user_data w !! uid' ∧
  user_data (second_image uid msg w).2 !! uid' = user_data w !! uid' ∧
  user_data (cancel uid w).2 !! uid' = user_data w !! uid' ∧
  user_data (process_name uid text w).2 !! uid' = user_data w !! uid'.
Proof.
  intros Hne Hu.
  pose proof (show_menu_other_user SettingsText SETTINGS uid uid' w Hne) as Hs.
  pose proof (λ w0, show_menu_other_user PositionMenuText CUSTOM_SPACING
                      uid uid' w0 Hne) as Hc.
  pose proof (λ w0, presets_menu_other_user uid uid' w0) as Hp.
  pose proof (λ w0, cancel_other_user uid uid' w0 Hne) as Hx.
  repeat split.
  - exact Hs.
  - apply Hc.
  - unfold handle_direction_selection.
    destruct (String.eqb text BACK_TEXT); [exact Hs|].
    destruct (position_key_of text);
      [|unfold custom_spacing_menu; rewrite Hc; unfold ensure_spacing;
        other_user].
    unfold ensure_spacing. other_user.
  - unfold handle_spacing_input.
    destruct (String.eqb text BACK_TEXT); [apply Hc|].
    destruct (int_of_str _); [|other_user].
    destruct (_ ≫= _); [|other_user].
    unfold custom_spacing_menu. rewrite Hc. other_user.
  - apply Hp.
  - unfold load_preset. other_user.
  - unfold edit_preset.
    destruct (String.eqb text BACK_TEXT); [apply Hp|]. other_user.
  - unfold save_preset.
    destruct (String.eqb text BACK_TEXT); [exact Hs|]. other_user.
  - unfold delete_preset.
    destruct (String.eqb text BACK_TEXT); [apply Hp|]. other_user.
  - unfold start_new_image.
    destruct (apply_last_preset uid w) as [[w1 [sp|]]|] eqn:Ha.
    + destruct (offsets_readable _ sp); cbn [snd user_data send];
        eapply apply_last_preset_other_user; eassumption.
    + cbn [snd user_data send].
      eapply apply_last_preset_other_user; eassumption.
    + other_user.
  - subst uid. unfold first_image, ensure_spacing. other_user.
  - unfold second_image.
    destruct (bool_decide _); [apply Hx|]. other_user.
  - apply Hx.
  - unfold process_name.
    destruct (String.eqb text CANCEL_TEXT); [apply Hx|].
    unfold report_error. other_user.
Qed.

End Sessions.

(** ** Well-formed sessions are kept *)

Lemma well_formed_same_spacing (s s' : session) :
  spacing s' = spacing s → well_formed_session s → well_formed_session s'.
Proof. intros Heq (sp & Hsp & Hread). exists sp. rewrite Heq. auto. Qed.

Lemma well_formed_default (s : session) :
  well_formed_session (set_spacing (JDict DEFAULT_SPACING) s).
Proof. exists DEFAULT_SPACING. split; reflexivity. Qed.

Lemma well_formed_insert (w w' : world) (uid : Z) (s : session) :
  well_formed_world w → well_formed_session s →
  user_data w' = <[uid := s]> (user_data w) → well_formed_world w'.
Proof.
  unfold well_formed_world. intros Hw Hs ->.
  apply map_Forall_insert_2; assumption.
Qed.

Lemma well_formed_same (w w' : world) :
  well_formed_world w → user_data w' = user_data w → well_formed_world w'.
Proof. unfold well_formed_world. intros Hw ->. exact Hw. Qed.

Lemma well_formed_lookup (w : world) (uid : Z) (s : session) :
  well_formed_world w → user_data w !! uid = Some s → well_formed_session s.
Proof. intros Hw Hs. exact (Hw _ _ Hs). Qed.

Lemma ensure_spacing_well_formed (uid : Z) (w : world) :
  well_formed_world w →
  well_formed_world (with_user_data (ensure_spacing uid (user_data w)) w) ∧
  ∃ s, ensure_spacing uid (user_data w) !! uid = Some s ∧ well_formed_session s.
Proof.
  intros Hw. unfold ensure_spacing.
  destruct (user_data w !! uid) as [s|] eqn:Hs.
  - pose proof (well_formed_lookup _ _ _ Hw Hs) as Hwf.
    change (default empty_session (Some s)) with s.
    destruct Hwf as (sp & Hsp & Hread). rewrite Hsp. split.
    + eapply well_formed_insert; [exact Hw| |reflexivity]. exists sp. auto.
    + exists s. split; [apply lookup_insert_eq|]. exists sp. auto.
  - change (default empty_session None) with empty_session.
    cbn [spacing empty_session]. split.
    + eapply well_formed_insert;
        [exact Hw|apply well_formed_default|reflexivity].
    + eexists. split; [apply lookup_insert_eq|apply well_formed_default].
Qed.

Section WellFormed.
Context `{Platform}.

Lemma show_menu_well_formed (body : reply) (next : conv_state) (uid : Z)
    (w : world) :
  well_formed_world w →
  (show_menu body next uid w).1 = Return next ∧
  well_formed_world (show_menu body next uid w).2.
Proof.
  intros Hw. unfold show_menu.
  destruct (ensure_spacing_well_formed uid w Hw) as (Hw1 & s & Hs & sp & Hsp & Hread).
  rewrite Hs. cbn [mbind option_bind]. rewrite Hsp, Hread. cbn [fst snd].
  split; [reflexivity|].
  eapply well_formed_same; [exact Hw1|reflexivity].
Qed.

Lemma handle_direction_selection_well_formed (uid : Z) (text : string) (w : world) :
  well_formed_world w →
  (handle_direction_selection uid text w).1 ≠ Raised ∧
  well_formed_world (handle_direction_selection uid text w).2.
Proof.
  intros Hw. unfold handle_direction_selection.
  destruct (String.eqb text BACK_TEXT).
  { destruct (show_menu_well_formed SettingsText SETTINGS uid w Hw) as [Hr Hwf].
    unfold settings. rewrite Hr. split; [discriminate|exact Hwf]. }
  destruct (ensure_spacing_well_formed uid w Hw) as (Hw1 & s & Hs & sp & Hsp & Hread).
  destruct (position_key_of text) as [k|] eqn:Hk.
  - rewrite Hs, Hsp. cbn [mbind option_bind].
    destruct (readable_key _ _ k Hread (position_key_in_keys _ _ Hk)) as [v ->].
    cbn [fst snd]. split; [discriminate|].
    eapply well_formed_insert; [exact Hw1| |reflexivity].
    exists sp. auto.
  - destruct (show_menu_well_formed PositionMenuText CUSTOM_SPACING uid _ Hw1)
      as [Hr Hwf].
    unfold custom_spacing_menu. rewrite Hr. split; [discriminate|exact Hwf].
Qed.

Lemma handle_spacing_input_well_formed (uid : Z) (text : string) (w : world) :
  well_formed_world w →
  (handle_spacing_input uid text w).1 ≠ Raised ∧
  well_formed_world (handle_spacing_input uid text w).2.
Proof.
  intros Hw. unfold handle_spacing_input.
  destruct (String.eqb text BACK_TEXT).
  { destruct (show_menu_well_formed PositionMenuText CUSTOM_SPACING uid w Hw)
      as [Hr Hwf].
    unfold custom_spacing_menu. rewrite Hr. split; [discriminate|exact Hwf]. }
  set (s := match user_data w !! uid with
            | Some s => s
            | None => set_spacing (JDict DEFAULT_SPACING) empty_session
            end).
  assert (well_formed_session s) as (sp & Hsp & Hread).
  { subst s. destruct (user_data w !! uid) as [s|] eqn:Hs.
    - eapply well_formed_lookup; eassumption.
    - apply well_formed_default. }
  assert (well_formed_world (with_user_data (<[uid := s]> (user_data w)) w)) as Hw1.
  { eapply well_formed_insert; [exact Hw| |reflexivity]. exists sp. auto. }
  destruct (int_of_str (str_strip text)) as [v|].
  - rewrite Hsp. cbn [mbind option_bind py_setitem].
    match goal with
    | |- context [custom_spacing_menu uid ?w2] =>
        destruct (show_menu_well_formed PositionMenuText CUSTOM_SPACING uid w2)
          as [Hr Hwf]
    end.
    { eapply well_formed_insert; [exact Hw1| |reflexivity].
      eexists. split; [reflexivity|]. apply offsets_readable_insert, Hread. }
    unfold custom_spacing_menu. rewrite Hr. split; [discriminate|exact Hwf].
  - cbn [fst snd]. split; [discriminate|].
    eapply well_formed_same; [exact Hw1|reflexivity].
Qed.

(** X17: sessions whose spacing is a dict with four numeric offsets stay
    that way.  In a world where every session is well formed, the
    settings handlers ([settings], [custom_spacing_menu],
    [handle_direction_selection], [handle_spacing_input]) never let an
    exception through, whatever the text, and they and the job handlers
    ([first_image], [second_image], [process_name], [cancel]) leave every
    session well formed, also the one they create for a new user. *)
Theorem sessions_stay_well_formed
    (uid : Z) (u : user) (text : string) (msg : message) (w : world) :
  well_formed_world w →
  ((settings uid w).1 = Return SETTINGS ∧ well_formed_world (settings uid w).2) ∧
  ((custom_spacing_menu uid w).1 = Return CUSTOM_SPACING ∧
   well_formed_world (custom_spacing_menu uid w).2) ∧
  ((handle_direction_selection uid text w).1 ≠ Raised ∧
   well_formed_world (handle_direction_selection uid text w).2) ∧
  ((handle_spacing_input uid text w).1 ≠ Raised ∧
   well_formed_world (handle_spacing_input uid text w).2) ∧
  well_formed_world (first_image u msg w).2 ∧
  well_formed_world (second_image uid msg w).2 ∧
  well_formed_world (process_name uid text w).2 ∧
  well_formed_world (cancel uid w).2.
Proof.
  intros Hw.
  assert (∀ w0, well_formed_world w0 → well_formed_world (cancel uid w0).2)
    as Hcancel.
  { intros w0 Hw0. unfold cancel.
    destruct (user_data w0 !! uid) as [s|] eqn:Hs; cbn [snd].
    - eapply well_formed_insert; [exact Hw0| |reflexivity].
      eapply well_formed_same_spacing;
        [|eapply well_formed_lookup; eassumption]. reflexivity.
    - eapply well_formed_same; [exact Hw0|reflexivity]. }
  split; [apply show_menu_well_formed, Hw|].
  split; [apply show_menu_well_formed, Hw|].
  split; [apply handle_direction_selection_well_formed, Hw|].
  split; [apply handle_spacing_input_well_formed, Hw|].
  split; [|split; [|split; [|apply Hcancel, Hw]]].
  - unfold first_image.
    destruct (ensure_spacing_well_formed (user_id u) w Hw)
      as (Hw1 & s & Hs & Hwf).
    rewrite Hs. change (default empty_session (Some s)) with s.
    set (s1 := set_user_info _ s).
    assert (well_formed_session s1) as Hwf1
      by (eapply well_formed_same_spacing; [|exact Hwf]; reflexivity).
    assert (well_formed_world
              (with_user_data
                 (<[user_id u := s1]> (ensure_spacing (user_id u) (user_data w))) w))
      as Hw2 by (eapply well_formed_insert; [exact Hw1|exact Hwf1|reflexivity]).
    destruct (classify_message msg) as [m d mime| |]; cbn [snd];
      try (eapply well_formed_same; [exact Hw2|reflexivity]).
    assert (well_formed_world
              (with_user_data
                 (<[user_id u := set_first m d mime s1]>
                    (<[user_id u := s1]>
                       (ensure_spacing (user_id u) (user_data w)))) w)) as Hw3.
    { eapply well_formed_insert; [exact Hw2| |reflexivity].
      eapply well_formed_same_spacing; [|exact Hwf1]. reflexivity. }
    destruct (spacing s1) as [sp|];
      [destruct (offsets_readable _ sp)|]; cbn [snd];
      (eapply well_formed_same; [exact Hw3|reflexivity]).
  - unfold second_image.
    destruct (bool_decide _); [apply Hcancel, Hw|].
    destruct (classify_message msg) as [m d mime| |]; cbn [snd];
      try (eapply well_formed_same; [exact Hw|reflexivity]).
    destruct (user_data w !! uid) as [s|] eqn:Hs; cbn [snd];
      [|exact Hw].
    eapply well_formed_insert; [exact Hw| |reflexivity].
    eapply well_formed_same_spacing;
      [|eapply well_formed_lookup; eassumption]. reflexivity.
  - unfold process_name.
    destruct (String.eqb text CANCEL_TEXT); [apply Hcancel, Hw|].
    unfold report_error.
    destruct (user_data w !! uid) as [s|] eqn:Hs; cbn [snd];
      [|eapply well_formed_same; [exact Hw|reflexivity]].
    destruct (compose s text) as [doc|]; cbn [snd];
      [|eapply well_formed_same; [exact Hw|reflexivity]].
    destruct (user_info s) as [[[i fn] un]|]; cbn [snd];
      [|eapply well_formed_same; [exact Hw|reflexivity]].
    eapply well_formed_insert; [exact Hw| |destruct group_reachable; reflexivity].
    eapply well_formed_same_spacing;
      [|eapply well_formed_lookup; eassumption]. reflexivity.
Qed.

End WellFormed.

(** ** Whole jobs *)

Section WholeJobs.
Context `{Platform}.

(** X18: the last preset is applied to one job only.  Once [cancel] has
    run, or [process_name] has delivered a composition, [start_new_image]
    does not read the preset file any more: it keeps the session as it
    is, offsets included, and asks for the main image without naming a
    preset. *)
Theorem last_preset_not_reapplied_after_job (uid : Z) (w : world) :
  start_new_image uid (cancel uid w).2
  = (Return FIRST_IMAGE, send (SendText (AskMainText false)) (cancel uid w).2) ∧
  ∀ text s doc info,
    text ≠ CANCEL_TEXT → user_data w !! uid = Some s →
    compose s text = Some doc → user_info s = Some info →
    start_new_image uid (process_name uid text w).2
    = (Return FIRST_IMAGE,
       send (SendText (AskMainText false)) (process_name uid text w).2).
Proof.
  assert (∀ w0 s0, user_data w0 !! uid = Some (settings_data s0) →
            start_new_image uid w0
            = (Return FIRST_IMAGE, send (SendText (AskMainText false)) w0))
    as Hreset.
  { intros w0 s0 Hs0. unfold start_new_image, apply_last_preset.
    rewrite Hs0. reflexivity. }
  split.
  - unfold cancel. destruct (user_data w !! uid) as [s|] eqn:Hs; cbn [snd].
    + eapply Hreset. cbn [user_data send with_user_data].
      apply lookup_insert_eq.
    + unfold start_new_image, apply_last_preset.
      cbn [user_data send with_user_data]. rewrite Hs. reflexivity.
  - intros text s doc [[i fn] un] Hcancel Hs Hdoc Hinfo.
    eapply Hreset. unfold process_name.
    rewrite (proj2 (String.eqb_neq _ _) Hcancel), Hs, Hdoc, Hinfo.
    destruct group_reachable; cbn [snd user_data send with_user_data];
      apply lookup_insert_eq.
Qed.

(** X19: a whole job of a user the bot has not seen.  A message with an
    image, a second message with an image, and a label, where both images
    open, run [first_image], [second_image] and [process_name] through to
    [END]: the document sent has the size of the main image, the
    reference at the clamped centre and the label at its default place,
    both computed with offsets 0; afterwards the session holds the default
    spacing and nothing else, and the preset file was never touched. *)
Theorem whole_job_for_new_user
    (u : user) (msg1 msg2 : message) (text : string) (w : world)
    (m1 m2 : media) (d1 d2 : bool) (mime1 mime2 : option string)
    (main_w main_h : Z) (size2 : Z * Z) :
  user_data w !! user_id u = None →
  classify_message msg1 = Stored m1 d1 mime1 →
  classify_message msg2 = Stored m2 d2 mime2 →
  open_image m1 = Some (main_w, main_h) →
  open_image m2 = Some size2 →
  text ≠ CANCEL_TEXT →
  let r1 := first_image u msg1 w in
  let r2 := second_image (user_id u) msg2 r1.2 in
  let r3 := process_name (user_id u) text r2.2 in
  let '(x0, y0, x1, y1) := font_getbbox text in
  r1.1 = Return SECOND_IMAGE ∧ r2.1 = Return NAME ∧ r3.1 = Return END ∧
  (∃ doc, SendDocument doc ∈ outbox r3.2 ∧
          canvas_size doc = (main_w, main_h) ∧ label doc = text ∧
          ref_anchor doc = ref_position main_w main_h 0 0 ∧
          text_anchor doc
          = text_position main_w main_h (x1 - x0) (y1 - y0) 0 0) ∧
  user_data r3.2 !! user_id u
  = Some (set_spacing (JDict DEFAULT_SPACING) empty_session) ∧
  files r3.2 = files w.
Proof.
  intros Hnew Hc1 Hc2 Ho1 Ho2 Hcancel. cbv zeta.
  destruct (font_getbbox text) as [[[x0 y0] x1] y1] eqn:Hbox.
  unfold first_image, ensure_spacing. rewrite Hnew, Hc1.
  change (default empty_session None) with empty_session.
  cbn [spacing empty_session]. rewrite lookup_insert_eq.
  change (default empty_session (Some ?s)) with s.
  cbn [spacing set_user_info set_spacing empty_session].
  change (offsets_readable ["image_x"; "image_y"] (JDict DEFAULT_SPACING))
    with true.
  cbn [fst snd]. split; [reflexivity|].
  unfold second_image.
  assert (message_text msg2 ≠ Some CANCEL_TEXT) as Hno.
  { destruct msg2; cbn in Hc2 |- *; discriminate. }
  rewrite (bool_decide_eq_false_2 _ Hno), Hc2.
  cbn [user_data send with_user_data]. rewrite !lookup_insert_eq.
  cbn [fst snd]. split; [reflexivity|].
  unfold process_name.
  rewrite (proj2 (String.eqb_neq _ _) Hcancel).
  cbn [user_data send with_user_data]. rewrite !lookup_insert_eq.
  unfold compose.
  cbn [first_photo second_photo spacing user_info set_first set_second
       set_user_info set_spacing empty_session mbind option_bind].
  rewrite Ho1, Ho2. cbn [mbind option_bind]. rewrite Hbox.
  change (read_offset (JDict DEFAULT_SPACING) "image_x") with (Some 0).
  change (read_offset (JDict DEFAULT_SPACING) "image_y") with (Some 0).
  change (read_offset (JDict DEFAULT_SPACING) "text_x") with (Some 0).
  change (read_offset (JDict DEFAULT_SPACING) "text_y") with (Some 0).
  cbn [mbind option_bind fst snd].
  split; [reflexivity|]. split; [|split].
  - match goal with
    | |- context [send (SendDocument ?d) _] => exists d
    end.
    split; [|repeat split; reflexivity].
    destruct group_reachable; cbn [outbox send with_user_data];
      rewrite !elem_of_app, !list_elem_of_singleton; tauto.
  - destruct group_reachable; cbn [user_data send with_user_data];
      rewrite lookup_insert_eq; reflexivity.
  - destruct group_reachable; reflexivity.
Qed.

End WholeJobs.

(** ** The placement arithmetic *)

(** X20: with both image offsets 0 and a main image of at least
    400 x 400 the reference is centred: on each axis the margin after it
    is the margin before it, or one pixel more when the difference of the
    sizes is odd. *)
Theorem ref_position_centred (main_w main_h : Z) :
  400 <= main_w → 400 <= main_h →
  let '(x, y) := ref_position main_w main_h 0 0 in
  0 <= x ∧ 0 <= y ∧
  0 <= (main_w - REF_IMAGE_SIZE - x) - x <= 1 ∧
  0 <= (main_h - REF_IMAGE_SIZE - y) - y <= 1.
Proof.
  intros Hw Hh. unfold ref_position, REF_IMAGE_SIZE. cbv zeta.
  change (400 / 2) with 200.
  pose proof (Z.div_mod main_w 2 ltac:(lia)).
  pose proof (Z.mod_pos_bound main_w 2 ltac:(lia)).
  pose proof (Z.div_mod main_h 2 ltac:(lia)).
  pose proof (Z.mod_pos_bound main_h 2 ltac:(lia)).
  lia.
Qed.

(** X21: a larger offset never moves a placement backwards, and never
    moves it further than the offset grew: for the reference and for the
    label, on each axis, raising the offset by [d >= 0] raises the
    anchor by at least 0 and at most [d]. *)
Theorem positions_follow_offsets
    (main_w main_h text_w text_h ox oy d : Z) :
  0 <= d →
  (let '(x, y) := ref_position main_w main_h ox oy in
   let '(x', _) := ref_position main_w main_h (ox + d) oy in
   let '(_, y') := ref_position main_w main_h ox (oy + d) in
   x <= x' <= x + d ∧ y <= y' <= y + d) ∧
  (let '(x, y) := text_position main_w main_h text_w text_h ox oy in
   let '(x', _) := text_position main_w main_h text_w text_h (ox + d) oy in
   let '(_, y') := text_position main_w main_h text_w text_h ox (oy + d) in
   x <= x' <= x + d ∧ y <= y' <= y + d).
Proof.
  intros Hd. unfold ref_position, text_position. cbv zeta beta iota.
  generalize (main_w / 2 - REF_IMAGE_SIZE / 2) (main_h / 2 - REF_IMAGE_SIZE / 2)
    ((main_w - text_w) / 2) (main_w - REF_IMAGE_SIZE) (main_h - REF_IMAGE_SIZE).
  intros cx cy tx hx hy.
  replace (cx + (ox + d)) with (cx + ox + d) by lia.
  replace (cy + (oy + d)) with (cy + oy + d) by lia.
  replace (tx + (ox + d)) with (tx + ox + d) by lia.
  replace (main_h - text_h - 30 + (oy + d))
    with (main_h - text_h - 30 + oy + d) by lia.
  repeat split; lia.
Qed.


(** ** The font of the label *)

Section FontResolution.
Context `{Platform}.

Lemma download_font_true (env : font_env) (cache : option string) :
  download_font env = (true, cache) → is_Some cache.
Proof.
  unfold download_font.
  destruct (font_cache env); [intros [= <-]; eauto|].
  destruct (http_get env BOLDONSE_FONT_URL) as [[[|] css]|]; try discriminate.
  destruct (find_font_url _) as [url|]; try discriminate.
  destruct (String.eqb url EmptyString); try discriminate.
  destruct (http_get env url) as [[[|] content]|]; try discriminate.
  destruct (cache_writable env); try discriminate.
  intros [= <-]. eauto.
Qed.

Lemma download_font_false (env : font_env) (cache : option string) :
  download_font env = (false, cache) → cache = None ∧ font_cache env = None.
Proof.
  unfold download_font.
  destruct (font_cache env); [discriminate|].
  destruct (http_get env BOLDONSE_FONT_URL) as [[[|] css]|];
    try (intros [= <-]; auto).
  destruct (find_font_url _) as [url|]; try (intros [= <-]; auto).
  destruct (String.eqb url EmptyString); try (intros [= <-]; auto).
  destruct (http_get env url) as [[[|] content]|]; try (intros [= <-]; auto).
  destruct (cache_writable env); [discriminate|intros [= <-]; auto].
Qed.

(** X23: [download_font] reports success exactly when the font file
    exists after the call; a file that is already there is kept as it is
    (nothing is fetched over it), and after a failure there is no file. *)
Theorem download_font_reports_the_cache (env : font_env) :
  let '(ok, cache) := download_font env in
  (ok = true ↔ is_Some cache) ∧
  (is_Some (font_cache env) → ok = true ∧ cache = font_cache env) ∧
  (ok = false → cache = None ∧ font_cache env = None).
Proof.
  destruct (download_font env) as [[|] cache] eqn:Hd.
  - pose proof (download_font_true _ _ Hd) as Hsome.
    split; [tauto|]. split; [|discriminate].
    intros [c Hc]. split; [reflexivity|].
    unfold download_font in Hd. rewrite Hc in Hd. congruence.
  - destruct (download_font_false _ _ Hd) as [-> Hnone].
    split; [|split; [|auto]].
    + split; [discriminate|]. intros [? ?]; discriminate.
    + rewrite Hnone. intros [? ?]; discriminate.
Qed.

(** X24: the label is never drawn with one of the platform fonts of
    [font_paths].  The font is Boldonse exactly when the font file exists
    after the download attempt and loads; in every other case, also when
    the file is absent, the download fails and a platform font is
    installed, it is the built-in default font. *)
Theorem platform_fonts_are_never_used (env : font_env) :
  (∀ path, (resolve_font env).1 ≠ PlatformFont path) ∧
  ((resolve_font env).1 = Boldonse ↔
   ∃ content, (resolve_font env).2 = Some content ∧
              parses_as_font env content = true) ∧
  ((resolve_font env).1 ≠ Boldonse → (resolve_font env).1 = DefaultFont) ∧
  (font_cache env = None → (download_font env).1 = false →
   resolve_font env = (DefaultFont, None)).
Proof.
  unfold resolve_font.
  destruct (font_cache env) as [c|] eqn:Hcache.
  - destruct (parses_as_font env c) eqn:Hp; cbn [fst snd].
    + repeat split; try discriminate; try tauto. eauto.
    + repeat split; try discriminate; try tauto.
      intros (c' & [= <-] & Hp'). congruence.
  - destruct (download_font env) as [[|] cache] eqn:Hd.
    + destruct (download_font_true _ _ Hd) as [c ->].
      destruct (parses_as_font env c) eqn:Hp; cbn [fst snd].
      * repeat split; try discriminate; try tauto. eauto.
      * repeat split; try discriminate; try tauto.
        intros (c' & [= <-] & Hp'). congruence.
    + destruct (download_font_false _ _ Hd) as [-> _]. cbn [fst snd].
      repeat split; try discriminate; try tauto.
      intros (c' & Hc' & _). discriminate.
Qed.

End FontResolution.

(** ** More on entering an offset and on starting a job *)

Section MoreOnSessions.
Context `{Platform}.

(** X25: [handle_spacing_input] catches [ValueError] only.  For a session
    that has no spacing, a text that is an integer makes the assignment
    fail: the exception leaves the handler, nothing is stored and nothing
    is sent. *)
Theorem spacing_input_without_spacing_raises
    (uid : Z) (text : string) (w : world) (s : session) (v : Z) :
  user_data w !! uid = Some s → spacing s = None →
  int_of_str (str_strip text) = Some v →
  handle_spacing_input uid text w = (Raised, w).
Proof.
  intros Hs Hsp Hv. unfold handle_spacing_input.
  rewrite (proj2 (String.eqb_neq _ _) (parsed_text_is_not_back _ _ Hv)).
  rewrite Hs, Hv, Hsp, (with_user_data_same _ _ _ Hs). reflexivity.
Qed.

(** X26: an offset entered by hand lasts until the next image when a
    preset was loaded before.  For a session whose last preset is stored
    with four integer offsets, an integer entered through
    [handle_spacing_input] changes the session's spacing, and the
    following [start_new_image] puts the offsets of the stored preset
    back, whatever was entered. *)
Theorem entered_offset_replaced_by_last_preset
    (uid : Z) (text name : string) (w : world) (s : session)
    (sp rec : gmap string json) (v a b c d : Z) :
  user_data w !! uid = Some s → spacing s = Some (JDict sp) →
  offsets_readable SPACING_KEYS (JDict sp) = true →
  last_preset s = Some name →
  (load_presets (files w)).1 !! name = Some (JDict rec) →
  rec !! "spacing" = Some (JDict (spacing_record a b c d)) →
  int_of_str (str_strip text) = Some v →
  let r1 := handle_spacing_input uid text w in
  let r2 := start_new_image uid r1.2 in
  user_data r1.2 !! uid ≫= spacing
  = Some (JDict (<[default "image_x" (current_spacing_key s) := JInt v]> sp)) ∧
  r2.1 = Return FIRST_IMAGE ∧
  user_data r2.2 !! uid ≫= spacing = Some (JDict (spacing_record a b c d)).
Proof.
  intros Hs Hsp Hread Hlast Hrec Hspacing Hv. cbv zeta.
  rewrite (handle_spacing_input_int _ _ _ _ _ _ Hv Hs Hsp Hread).
  cbn [fst snd user_data send with_user_data]. rewrite lookup_insert_eq.
  split; [reflexivity|].
  unfold start_new_image, apply_last_preset.
  cbn [user_data files outbox send with_user_data]. rewrite lookup_insert_eq.
  cbn [last_preset set_spacing]. rewrite Hlast.
  destruct (load_presets (files w)) as [presets fs1]. cbn [fst] in Hrec.
  rewrite Hrec, py_in_dict, Hspacing.
  rewrite bool_decide_eq_true_2 by eauto. cbn [mbind option_bind].
  rewrite (filled_copy_dict _ _ Hspacing), spacing_record_filled.
  cbn [mbind option_bind].
  change (offsets_readable ["image_x"; "image_y"]
            (JDict (spacing_record a b c d))) with true.
  cbn [fst snd user_data send with_user_data with_files].
  rewrite lookup_insert_eq. split; reflexivity.
Qed.

End MoreOnSessions.

(** * The further properties on the sample inputs *)

Lemma load_presets_malformed_record_witness :
  broken_document !! "New" = Some (preset_entry (JDict (spacing_record 1 2 3 4))) ∧
  load_presets broken_disk = (∅, broken_disk).
Proof.
  split; [reflexivity|].
  apply (load_presets_malformed_record broken_disk broken_document "Bad" (JInt 5));
    [reflexivity|reflexivity|left; exact I].
Defined.

Lemma load_presets_keeps_names_and_fields_witness :
  dom (load_presets legacy_disk).1 = dom legacy_document ∧
  ∃ rec', (load_presets legacy_disk).1 !! "Old" = Some (JDict rec') ∧
          rec' !! "spacing" = Some (JDict DEFAULT_SPACING).
Proof.
  destruct (load_presets_keeps_names_and_fields legacy_disk legacy_document
              eq_refl legacy_document_records) as [Hdom _].
  split; [exact Hdom|]. eexists. split; reflexivity.
Defined.

Lemma save_preset_upserts_witness :
  ∃ doc,
    presets_file (files (save_preset 7 " Demo " (world_of sample_session stored_disk)).2)
    = Some (Document (JDict doc)) ∧
    doc !! "Demo" = Some (preset_entry (JDict (spacing_record 20 (-10) 0 5))) ∧
    doc !! "New" = Some (preset_entry (JDict (spacing_record 1 2 3 4))).
Proof.
  assert (" Demo " ≠ BACK_TEXT) as Hback by discriminate.
  assert (str_strip " Demo " ≠ EmptyString) as Hne by discriminate.
  destruct (save_preset_upserts (H := sample_platform) 7 " Demo "
              (world_of sample_session stored_disk) sample_session
              (JDict (spacing_record 20 (-10) 0 5))
              Hback Hne eq_refl eq_refl eq_refl)
    as (_ & (doc & Hfile & Hname & Hothers) & _).
  exists doc. split; [exact Hfile|]. split; [exact Hname|].
  rewrite Hothers by discriminate. reflexivity.
Defined.

Lemma save_preset_replaces_broken_document_witness :
  broken_document !! "New" = Some (preset_entry (JDict (spacing_record 1 2 3 4))) ∧
  presets_file (files (save_preset 7 "Demo" (world_of sample_session broken_disk)).2)
  = Some (Document
            (JDict {["Demo" := preset_entry (JDict (spacing_record 20 (-10) 0 5))]})).
Proof.
  split; [reflexivity|].
  assert ("Demo" ≠ BACK_TEXT) as Hback by discriminate.
  assert (str_strip "Demo" ≠ EmptyString) as Hne by discriminate.
  apply (save_preset_replaces_broken_document (H := sample_platform) 7 "Demo"
           (world_of sample_session broken_disk) sample_session
           (JDict (spacing_record 20 (-10) 0 5)) Hback Hne eq_refl eq_refl eq_refl).
  right. exists broken_document, "Bad", (JInt 5).
  repeat split.
Defined.

Lemma save_preset_refusals_witness :
  save_preset 7 "   " sample_world
  = (Return PRESET_NAME, send (SendText EmptyNameText) sample_world) ∧
  save_preset 9 "Demo" sample_world
  = (Return SETTINGS, send (SendText NoSpacingText) sample_world) ∧
  save_preset 7 "Demo" (world_of sample_session (Disk None false []))
  = (Return SETTINGS,
     send (SendText PresetSaveFailedText)
       (world_of sample_session (Disk None false []))).
Proof.
  assert ("   " ≠ BACK_TEXT) as Hb1 by discriminate.
  assert ("Demo" ≠ BACK_TEXT) as Hb2 by discriminate.
  assert (str_strip "Demo" ≠ EmptyString) as Hne by discriminate.
  split; [|split].
  - apply (save_preset_refusals (H := sample_platform) 7 "   " sample_world Hb1).
    reflexivity.
  - apply (save_preset_refusals (H := sample_platform) 9 "Demo" sample_world Hb2);
      [exact Hne|reflexivity].
  - apply (save_preset_refusals (H := sample_platform) 7 "Demo"
             (world_of sample_session (Disk None false [])) Hb2);
      [exact Hne|eexists; reflexivity|reflexivity].
Defined.

Lemma delete_preset_removes_witness :
  let w := world_of sample_session stored_disk in
  let w' := (delete_preset 7 "Delete: New (1px Right, 2px Down)" w).1.2 in
  (load_presets (files w')).1
  = {["Demo" := preset_entry (JDict (spacing_record 20 (-10) 0 5))]}.
Proof.
  cbv zeta.
  assert ("Delete: New (1px Right, 2px Down)" ≠ BACK_TEXT) as Hback by discriminate.
  pose proof (delete_preset_removes (H := sample_platform) 7
                "Delete: New (1px Right, 2px Down)"
                (world_of sample_session stored_disk)
                (preset_entry (JDict (spacing_record 1 2 3 4)))
                Hback eq_refl eq_refl eq_refl) as Hdel.
  destruct (delete_preset 7 "Delete: New (1px Right, 2px Down)"
              (world_of sample_session stored_disk)) as [[result w'] answer].
  destruct Hdel as (_ & _ & Hload & _). cbn [fst snd].
  rewrite Hload. cbn [fst]. vm_compute. reflexivity.
Defined.

Lemma delete_preset_refusals_witness :
  let w := world_of sample_session stored_disk in
  delete_preset 7 "New" w = (Return DELETE_PRESET, w, Some SelectDeleteText) ∧
  delete_preset 7 "Delete: Gone (Center)" w
  = (Return DELETE_PRESET, w, Some DeleteNotFoundText).
Proof.
  cbv zeta.
  assert ("New" ≠ BACK_TEXT) as Hb1 by discriminate.
  assert ("Delete: Gone (Center)" ≠ BACK_TEXT) as Hb2 by discriminate.
  split.
  - apply (delete_preset_refusals (H := sample_platform) 7 "New" _ Hb1).
    reflexivity.
  - destruct (delete_preset_refusals (H := sample_platform) 7
                "Delete: Gone (Center)" (world_of sample_session stored_disk) Hb2)
      as (_ & Hgone & _).
    destruct (Hgone eq_refl eq_refl) as [-> _]. reflexivity.
Defined.

Lemma save_then_delete_restores_witness :
  let w := world_of sample_session stored_disk in
  let w1 := (save_preset 7 "Third" w).2 in
  (load_presets (files w1)).1 !! "Third"
  = Some (preset_entry (JDict (spacing_record 20 (-10) 0 5))) ∧
  (load_presets (files (delete_preset 7 "Delete: Third (20px Right, 10px Up)" w1).1.2)).1
  = stored_document.
Proof.
  cbv zeta. split; [vm_compute; reflexivity|].
  assert ("Third" ≠ BACK_TEXT) as Hb1 by discriminate.
  assert (str_strip "Third" ≠ EmptyString) as Hne by discriminate.
  assert ("Delete: Third (20px Right, 10px Up)" ≠ BACK_TEXT) as Hb2
    by discriminate.
  destruct (save_then_delete_restores (H := sample_platform) 7 "Third"
              "Delete: Third (20px Right, 10px Up)"
              (world_of sample_session stored_disk) sample_session 20 (-10) 0 5
              Hb1 Hne eq_refl eq_refl eq_refl eq_refl Hb2 eq_refl eq_refl)
    as [_ Hrestored].
  rewrite Hrestored. vm_compute. reflexivity.
Defined.

Lemma saved_preset_loads_for_any_user_witness :
  let w1 := (save_preset 7 "Demo" shared_world).2 in
  user_data shared_world !! 8 ≫= spacing = Some (JDict DEFAULT_SPACING) ∧
  user_data (load_preset 8 (Some "Demo") EmptyString w1).2 !! 8 ≫= spacing
  = Some (JDict (spacing_record 20 (-10) 0 5)).
Proof.
  cbv zeta. split; [reflexivity|].
  assert ("Demo" ≠ BACK_TEXT) as Hback by discriminate.
  assert (str_strip "Demo" ≠ EmptyString) as Hne by discriminate.
  destruct (saved_preset_loads_for_any_user (H := sample_platform) 7 8 "Demo"
              EmptyString shared_world sample_session 20 (-10) 0 5
              Hback Hne eq_refl eq_refl eq_refl)
    as (_ & Hspacing & _).
  exact Hspacing.
Defined.

Lemma load_preset_without_spacing_witness :
  user_data (load_preset 7 (Some "A") EmptyString
               (world_of sample_session bare_disk)).2 !! 7 ≫= spacing
  = Some (JDict DEFAULT_SPACING) ∧
  user_data (load_preset 7 (Some "A") EmptyString
               (world_of sample_session bare_disk)).2 !! 7 ≫= last_preset
  = Some "Demo".
Proof.
  destruct (load_preset_without_spacing (H := sample_platform) 7 "A" EmptyString
              (world_of sample_session bare_disk) ∅ eq_refl eq_refl)
    as [-> _].
  split; reflexivity.
Defined.

Lemma choose_direction_then_enter_value_witness :
  position_key_of image_y_button = Some "image_y" ∧
  let r1 := handle_direction_selection 7 image_y_button sample_world in
  let r2 := handle_spacing_input 7 "35" r1.2 in
  user_data r2.2 !! 7 ≫= spacing = Some (JDict (spacing_record 20 35 0 5)).
Proof.
  split; [reflexivity|]. cbv zeta.
  assert (image_y_button ≠ BACK_TEXT) as Hback by discriminate.
  destruct (choose_direction_then_enter_value (H := sample_platform) 7
              image_y_button "35" "image_y" sample_world sample_session
              (spacing_record 20 (-10) 0 5) 35
              eq_refl eq_refl eq_refl Hback eq_refl eq_refl)
    as (_ & _ & _ & _ & -> & _).
  reflexivity.
Defined.

Lemma group_failure_still_delivers_witness :
  process_name (H := offline_platform) 7 "Hi" sample_world =
    (Return END,
     World {[7 := settings_data sample_session]} empty_disk
       [SendText ProcessingText; SendDocument sample_composition;
        SendText GroupSkippedText; SendText MergedText]).
Proof.
  assert ("Hi" ≠ CANCEL_TEXT) as Hne by discriminate.
  rewrite (group_failure_still_delivers (H := offline_platform) 7 "Hi"
             sample_world sample_session sample_composition (7, "Ann", "ann")
             eq_refl Hne eq_refl eq_refl eq_refl).
  vm_compute. reflexivity.
Defined.

Lemma process_name_reports_error_witness :
  read_offset (JDict partial_spacing) "text_y" = None ∧
  process_name 7 "Hi"
    (world_of (set_spacing (JDict partial_spacing) sample_session) empty_disk)
  = (Return END,
     World {[7 := set_spacing (JDict partial_spacing) sample_session]} empty_disk
       [SendText ProcessingText; SendText ErrorText; SendText TryAgainText]).
Proof.
  split; [reflexivity|].
  assert ("Hi" ≠ CANCEL_TEXT) as Hne by discriminate.
  apply (process_name_reports_error (H := sample_platform) 7 "Hi"
           (world_of (set_spacing (JDict partial_spacing) sample_session)
              empty_disk) Hne).
  cbn. do 5 right. exists (JDict partial_spacing), "text_y".
  split; [reflexivity|]. split; [|reflexivity].
  unfold SPACING_KEYS. rewrite !elem_of_cons. tauto.
Defined.

Lemma handlers_leave_other_users_witness :
  user_data (handle_spacing_input 7 "12" shared_world).2 !! 8 = Some other_session ∧
  user_data (process_name 7 "Hi" shared_world).2 !! 8 = Some other_session ∧
  user_data (cancel 7 shared_world).2 !! 8 = Some other_session.
Proof.
  assert ((7 : Z) ≠ 8) as Hne by discriminate.
  destruct (handlers_leave_other_users (H := sample_platform) 7 8 sample_user
              "12" (TextMsg "12") None shared_world Hne eq_refl)
    as (_ & _ & _ & Hinput & _).
  destruct (handlers_leave_other_users (H := sample_platform) 7 8 sample_user
              "Hi" (TextMsg "Hi") None shared_world Hne eq_refl)
    as (_ & _ & _ & _ & _ & _ & _ & _ & _ & _ & _ & _ & Hcancel & Hjob).
  rewrite Hinput, Hjob, Hcancel. repeat split.
Defined.

Lemma sample_world_well_formed : well_formed_world shared_world.
Proof.
  unfold well_formed_world, shared_world. cbn [user_data].
  apply map_Forall_insert_2; [apply well_formed_default|].
  apply map_Forall_insert_2; [|apply map_Forall_empty].
  eexists. split; reflexivity.
Qed.

Lemma sessions_stay_well_formed_witness :
  (handle_spacing_input 7 "not a number" shared_world).1 = Return SPACING_INPUT ∧
  well_formed_world (handle_spacing_input 7 "-3" shared_world).2 ∧
  well_formed_world (process_name 7 "Hi" shared_world).2.
Proof.
  split; [reflexivity|].
  destruct (sessions_stay_well_formed (H := sample_platform) 7 sample_user
              "-3" (TextMsg "-3") shared_world sample_world_well_formed)
    as (_ & _ & _ & [_ Hinput] & _).
  destruct (sessions_stay_well_formed (H := sample_platform) 7 sample_user
              "Hi" (TextMsg "Hi") shared_world sample_world_well_formed)
    as (_ & _ & _ & _ & _ & _ & Hjob & _).
  split; assumption.
Defined.

(** Scenario A: a user the bot has not seen sends two photos and a
    label. *)
Lemma whole_job_for_new_user_witness :
  let w := World ∅ stored_disk [] in
  let r1 := first_image sample_user (PhotoMsg [Media "main"]) w in
  let r2 := second_image 7 (PhotoMsg [Media "ref"]) r1.2 in
  let r3 := process_name 7 "Hi" r2.2 in
  r3.1 = Return END ∧
  (∃ doc, SendDocument doc ∈ outbox r3.2 ∧ ref_anchor doc = (50, 50) ∧
          text_anchor doc = (226, 434)) ∧
  files r3.2 = stored_disk.
Proof.
  cbv zeta.
  assert ("Hi" ≠ CANCEL_TEXT) as Hne by discriminate.
  pose proof (whole_job_for_new_user (H := sample_platform) sample_user
                (PhotoMsg [Media "main"]) (PhotoMsg [Media "ref"]) "Hi"
                (World ∅ stored_disk []) (Media "main") (Media "ref")
                false false None None 500 500 (100, 100)
                eq_refl eq_refl eq_refl eq_refl eq_refl Hne) as Hjob.
  cbv zeta in Hjob.
  change (font_getbbox "Hi") with (0, 0, 48, 36) in Hjob.
  cbv beta iota in Hjob.
  destruct Hjob as (_ & _ & Hend & (doc & Hsent & _ & _ & Hanchor & Htext) & _ & Hfiles).
  split; [exact Hend|]. split; [|exact Hfiles].
  exists doc. split; [exact Hsent|]. rewrite Hanchor, Htext. split; reflexivity.
Defined.

Lemma ref_position_centred_witness :
  ref_position 501 400 0 0 = (50, 0) ∧
  0 <= (501 - REF_IMAGE_SIZE - 50) - 50 <= 1.
Proof.
  split; [reflexivity|].
  pose proof (ref_position_centred 501 400 ltac:(lia) ltac:(lia)) as Hc.
  change (ref_position 501 400 0 0) with (50, 0) in Hc.
  cbv beta iota in Hc. tauto.
Defined.

Lemma positions_follow_offsets_witness :
  ref_position 500 500 40 0 = (90, 50) ∧
  ref_position 500 500 (40 + 30) 0 = (100, 50) ∧
  90 <= 100 <= 90 + 30.
Proof.
  split; [reflexivity|]. split; [reflexivity|].
  pose proof (positions_follow_offsets 500 500 48 36 40 0 30 ltac:(lia)) as [Hp _].
  change (ref_position 500 500 40 0) with (90, 50) in Hp.
  change (ref_position 500 500 (40 + 30) 0) with (100, 50) in Hp.
  change (ref_position 500 500 40 (0 + 30)) with (90, 80) in Hp.
  cbv beta iota in Hp. tauto.
Defined.


Lemma spacing_input_without_spacing_raises_witness :
  handle_spacing_input 7 "12" (world_of empty_session empty_disk)
  = (Raised, world_of empty_session empty_disk).
Proof.
  apply (spacing_input_without_spacing_raises (H := sample_platform) 7 "12"
           (world_of empty_session empty_disk) empty_session 12);
    reflexivity.
Defined.

Lemma entered_offset_replaced_by_last_preset_witness :
  let w := world_of sample_session stored_disk in
  let r1 := handle_spacing_input 7 "77" w in
  user_data r1.2 !! 7 ≫= spacing = Some (JDict (spacing_record 20 (-10) 77 5)) ∧
  user_data (start_new_image 7 r1.2).2 !! 7 ≫= spacing
  = Some (JDict (spacing_record 20 (-10) 0 5)).
Proof.
  cbv zeta.
  destruct (entered_offset_replaced_by_last_preset (H := sample_platform) 7 "77"
              "Demo" (world_of sample_session stored_disk) sample_session
              (spacing_record 20 (-10) 0 5)
              (<["spacing" := JDict (spacing_record 20 (-10) 0 5)]> ∅)
              77 20 (-10) 0 5
              eq_refl eq_refl eq_refl eq_refl eq_refl eq_refl eq_refl)
    as (-> & _ & ->).
  split; reflexivity.
Defined.
